(** * Waffle utilities, language listing and rate-limit seeding of edx-platform

    A shallow embedding of

    - [openedx/core/djangoapps/waffle_utils/__init__.py]
      (namespaced, request-cached waffle switches and flags, course overrides),
    - [openedx/core/djangoapps/lang_pref/api.py]
      ([released_languages], [all_languages]),
    - [common/djangoapps/util/migrations/0002_data__default_rate_limit_config.py]
      ([forwards]),

    followed by the properties of these functions.

    Python objects with mutable state (the request cache, the waffle tables,
    the course-override table) live in one explicit [World]; every method that
    reads or writes them is a computation in the monad [M], which threads the
    world and propagates raised exceptions. *)

From stdpp Require Import gmap strings list fin_maps.
From Stdlib Require Import Strings.Ascii Sorting.Sorted Sorting.Permutation.

Local Open Scope string_scope.

(** ** Python values, exceptions and the effect monad *)

(** An opaque course identifier ([opaque_keys.edx.keys.CourseKey]); the wrapped
    string is its serialised form. *)
Definition CourseKey := string.

(** The values a caller can pass where a course identifier is expected. *)
Inductive PyArg :=
| ArgNone
| ArgStr (s : string)
| ArgCourseKey (k : CourseKey).

(** [str(x)] on those values. *)
Definition py_str (x : PyArg) : string :=
  match x with
  | ArgNone => "None"
  | ArgStr s => s
  | ArgCourseKey k => k
  end.

(** [issubclass(type(x), CourseKey)] *)
Definition is_course_key (x : PyArg) : bool :=
  match x with
  | ArgCourseKey _ => true
  | _ => false
  end.

Inductive exn :=
| AssertionError (msg : string)
| Exception (msg : string).

Inductive result (A : Type) :=
| Ok (a : A)
| Raise (e : exn).
Arguments Ok {A} a.
Arguments Raise {A} e.

(** The three values of [CourseOverrideWaffleFlagModel.ALL_CHOICES]. *)
Inductive Choice := on | off | unset.

#[global] Instance Choice_eq_dec : EqDecision Choice.
Proof. solve_decision. Defined.

(** What a computation consulted (most recent first). The source keeps no
    such record; it is carried along so that "this call did not consult the
    store" can be stated. *)
Inductive Event :=
| EvRequestCache (name : string)
| EvSwitchStore (name : string)
| EvFlagStore (name : string)
| EvCallback (name : string)
| EvOverrideStore (name : string) (course_id : CourseKey).

Record World := mkWorld {
  (** [request_cache]: name of a namespaced cache -> key -> dictionary *)
  request_cache : gmap string (gmap string (gmap string bool));
  (** waffle's Switch table: name -> active *)
  switches : gmap string bool;
  (** waffle's flags as they evaluate for the current request *)
  flags : gmap string bool;
  (** the course-override table *)
  course_overrides : gmap (string * CourseKey) Choice;
  consulted : list Event
}.

Definition M (A : Type) : Type := World -> result A * World.

Definition ret {A} (a : A) : M A := fun w => (Ok a, w).

Definition bind {A B} (m : M A) (k : A -> M B) : M B :=
  fun w =>
    match m w with
    | (Ok a, w') => k a w'
    | (Raise e, w') => (Raise e, w')
    end.

Definition raise {A} (e : exn) : M A := fun w => (Raise e, w).

(** [try: m finally: f] *)
Definition try_finally {A} (m : M A) (f : M unit) : M A :=
  fun w =>
    let (r, w1) := m w in
    match f w1 with
    | (Ok _, w2) => (r, w2)
    | (Raise e, w2) => (Raise e, w2)
    end.

Definition get_world : M World := fun w => (Ok w, w).

Definition tell (e : Event) : M unit :=
  fun w => (Ok tt, mkWorld (request_cache w) (switches w) (flags w)
                           (course_overrides w) (e :: consulted w)).

Definition set_request_cache (rc : gmap string (gmap string (gmap string bool))) : M unit :=
  fun w => (Ok tt, mkWorld rc (switches w) (flags w) (course_overrides w) (consulted w)).

Definition set_switches (s : gmap string bool) : M unit :=
  fun w => (Ok tt, mkWorld (request_cache w) s (flags w) (course_overrides w) (consulted w)).

Declare Scope py_scope.
Delimit Scope py_scope with py.
Notation "x <- m ;; k" := (bind m (fun x => k))
  (at level 100, m at next level, right associativity) : py_scope.
Notation "m ;; k" := (bind m (fun _ => k))
  (at level 100, right associativity) : py_scope.
Local Open Scope py_scope.

(** ** External collaborators *)

(** [waffle.switch_is_active(name)]: a missing switch is inactive. *)
Definition switch_is_active (name : string) : M bool :=
  tell (EvSwitchStore name) ;;
  w <- get_world ;;
  ret (default false (switches w !! name)).

(** [waffle.flag_is_active(get_request(), name)]: a missing flag is inactive. *)
Definition flag_is_active (name : string) : M bool :=
  tell (EvFlagStore name) ;;
  w <- get_world ;;
  ret (default false (flags w !! name)).

(** Modelled from the spec: [CourseOverrideWaffleFlagModel.override_value]
    (models.py), the lookup in the course-override store, a mapping from (flag
    key, course identifier) to one of force-on, force-off, not-forced; a pair
    with no record is not forced. *)
Definition override_value (namespaced_flag_name : string) (course_id : CourseKey) : M Choice :=
  tell (EvOverrideStore namespaced_flag_name course_id) ;;
  w <- get_world ;;
  ret (default unset (course_overrides w !! (namespaced_flag_name, course_id))).

(** Modelled from the spec: [request_cache.get_cache(name)], which returns the
    mapping of that name scoped to the current request and, if the request has
    no such mapping yet, creates an empty one and attaches it. *)
Definition get_request_cache (name : string) : M (gmap string (gmap string bool)) :=
  tell (EvRequestCache name) ;;
  w <- get_world ;;
  match request_cache w !! name with
  | Some d => ret d
  | None => set_request_cache (<[name := ∅]> (request_cache w)) ;; ret ∅
  end.

(** Modelled from the spec: [waffle.testutils.override_switch(name, active)],
    the scoped override on the external switch store: on entry the switch is
    forced to [active]; on exit, normal or not, the entry of [name] is put back
    to what it was on entry (a switch that did not exist is removed again). *)
Definition waffle_override_switch {A} (name : string) (active : bool) (body : M A) : M A :=
  w <- get_world ;;
  let old_value := switches w !! name in
  set_switches (<[name := active]> (switches w)) ;;
  try_finally body
    (w' <- get_world ;;
     match old_value with
     | Some v => set_switches (<[name := v]> (switches w'))
     | None => set_switches (delete name (switches w'))
     end).

(** ** [waffle_utils/__init__.py] *)

(** The dictionaries handed out by the request cache are shared mutable
    objects: a write through the handle returned by
    [_get_namespace_request_cache().setdefault(sub, {})] is a write into the
    request cache itself. The two operations below are that access path. *)

(** [get_request_cache(cache_name).setdefault(sub, {})] *)
Definition namespace_dict (cache_name sub : string) : M (gmap string bool) :=
  ns <- get_request_cache cache_name ;;
  match ns !! sub with
  | Some d => ret d
  | None =>
      w <- get_world ;;
      set_request_cache (<[cache_name := <[sub := ∅]> ns]> (request_cache w)) ;;
      ret ∅
  end.

(** [get_request_cache(cache_name).setdefault(sub, {})[key] = value] *)
Definition namespace_dict_setitem (cache_name sub key : string) (value : bool) : M unit :=
  d <- namespace_dict cache_name sub ;;
  w <- get_world ;;
  let ns := default ∅ (request_cache w !! cache_name) in
  set_request_cache (<[cache_name := <[sub := <[key := value]> d]> ns]> (request_cache w)).

Module WaffleNamespace.

Record t := mk {
  namespace : string;
  log_prefix : option string
}.

(** [assert namespace, "The namespace is required."]: [None] and the empty
    string are the falsy arguments. *)
Definition __init__ (namespace : option string) (log_prefix : option string) : result t :=
  match namespace with
  | Some (String c s) => Ok (mk (String c s) log_prefix)
  | Some EmptyString | None => Raise (AssertionError "The namespace is required.")
  end.

(** [u'{}.{}'.format(self.namespace, setting_name)] *)
Definition _namespaced_name (self : t) (setting_name : string) : string :=
  namespace self +:+ "." +:+ setting_name.

Definition _get_namespace_request_cache : M (gmap string (gmap string bool)) :=
  get_request_cache "WaffleNamespace".

End WaffleNamespace.

Module WaffleSwitchNamespace.
Import WaffleNamespace.

(** the property [_cached_switches]:
    [self._get_namespace_request_cache().setdefault('switches', {})] *)
Definition _cached_switches : M (gmap string bool) :=
  namespace_dict "WaffleNamespace" "switches".

Definition is_enabled (self : t) (switch_name : string) : M bool :=
  let namespaced_switch_name := _namespaced_name self switch_name in
  cached <- _cached_switches ;;
  match cached !! namespaced_switch_name with
  | Some value => ret value
  | None =>
      value <- switch_is_active namespaced_switch_name ;;
      namespace_dict_setitem "WaffleNamespace" "switches" namespaced_switch_name value ;;
      ret value
  end.

(** The [log.info] calls of the two overrides below write to the log only. *)
Definition override_for_request (self : t) (switch_name : string) (active : bool) : M unit :=
  let namespaced_switch_name := _namespaced_name self switch_name in
  namespace_dict_setitem "WaffleNamespace" "switches" namespaced_switch_name active.

(** [with self.override_in_model(switch_name, active): body] *)
Definition override_in_model {A} (self : t) (switch_name : string) (active : bool)
    (body : M A) : M A :=
  let namespaced_switch_name := _namespaced_name self switch_name in
  waffle_override_switch namespaced_switch_name active body.

(** [with self.override(switch_name, active): body]. The generator runs up
    to its [yield], the body of the [with] statement runs there, and an
    exception of the body is raised at the [yield], inside the [try]. *)
Definition override {A} (self : t) (switch_name : string) (active : bool)
    (body : M A) : M A :=
  previous_active <- is_enabled self switch_name ;;
  try_finally
    (override_for_request self switch_name active ;;
     override_in_model self switch_name active body)
    (override_for_request self switch_name previous_active).

End WaffleSwitchNamespace.

Module WaffleFlagNamespace.
Import WaffleNamespace.

(** the property [_cached_flags]:
    [self._get_namespace_request_cache().setdefault('flags', {})] *)
Definition _cached_flags : M (gmap string bool) :=
  namespace_dict "WaffleNamespace" "flags".

Definition is_enabled (self : t) (flag_name : string)
    (check_before_waffle_callback : option (string -> M (option bool))) : M bool :=
  let namespaced_flag_name := _namespaced_name self flag_name in
  cached <- _cached_flags ;;
  match cached !! namespaced_flag_name with
  | Some value => ret value
  | None =>
      value <- match check_before_waffle_callback with
               | Some callback =>
                   tell (EvCallback namespaced_flag_name) ;;
                   callback namespaced_flag_name
               | None => ret None
               end ;;
      value <- match value with
               | Some v => ret v
               | None => flag_is_active namespaced_flag_name
               end ;;
      namespace_dict_setitem "WaffleNamespace" "flags" namespaced_flag_name value ;;
      ret value
  end.

End WaffleFlagNamespace.

Module WaffleFlag.

Record t := mk {
  waffle_namespace : WaffleNamespace.t;
  flag_name : string
}.

Definition is_enabled (self : t) : M bool :=
  WaffleFlagNamespace.is_enabled (waffle_namespace self) (flag_name self) None.

End WaffleFlag.

Module CourseOverrideWaffleFlag.
Import WaffleFlag.

Definition _get_course_override_callback (self : t) (course_id : CourseKey)
    : string -> M (option bool) :=
  fun namespaced_flag_name =>
    force_override <- override_value namespaced_flag_name course_id ;;
    if decide (force_override = on) then ret (Some true)
    else if decide (force_override = off) then ret (Some false)
    else ret None.

(** [course_id] is whatever the caller passed; the default is [None].
    [assert issubclass(type(course_id), CourseKey), ...] lets only a CourseKey
    through (see [is_course_key]). *)
Definition is_enabled (self : t) (course_id : PyArg) : M bool :=
  match course_id with
  | ArgCourseKey k =>
      WaffleFlagNamespace.is_enabled (waffle_namespace self) (flag_name self)
        (Some (_get_course_override_callback self k))
  | _ =>
      raise (AssertionError
               ("The course_id '" +:+ py_str course_id +:+ "' must be a CourseKey."))
  end.

End CourseOverrideWaffleFlag.

(** ** Sorting, as [list.sort] and [sorted] do it *)

(** Python's sort is stable; a stable sort has one possible result, the one
    insertion from the right computes. Strings compare by code unit
    ([String.leb]). *)
Fixpoint insert_by {A} (key : A -> string) (x : A) (l : list A) : list A :=
  match l with
  | [] => [x]
  | y :: l' => if String.leb (key x) (key y) then x :: l else y :: insert_by key x l'
  end.

Definition sorted_by {A} (key : A -> string) (l : list A) : list A :=
  foldr (insert_by key) [] l.

(** ** [lang_pref/api.py] *)

Record Language := mkLanguage {
  code : string;
  name : string
}.

(** [released_languages()], as a function of what it reads:
    [DarkLangConfig.current().released_languages_list],
    [settings.LANGUAGE_CODE] and [settings.LANGUAGES]. *)
Definition released_languages (released_languages_list : list string)
    (LANGUAGE_CODE : string) (LANGUAGES : list (string * string)) : list Language :=
  let released_language_codes := released_languages_list in
  let default_language_code := LANGUAGE_CODE in
  let released_language_codes :=
    if bool_decide (default_language_code ∈ released_language_codes)
    then released_language_codes
    else sorted_by id (released_language_codes ++ [default_language_code]) in
  (fun language_info => mkLanguage (fst language_info) (snd language_info))
    <$> filter (fun language_info => fst language_info ∈ released_language_codes) LANGUAGES.

(** [all_languages()], as a function of the active translation [ugettext]
    and of [settings.ALL_LANGUAGES]. *)
Definition all_languages (ugettext : string -> string)
    (ALL_LANGUAGES : list (string * string)) : list (string * string) :=
  let languages := (fun lang => (fst lang, ugettext (snd lang))) <$> ALL_LANGUAGES in
  sorted_by snd languages.

(** ** [util/migrations/0002_data__default_rate_limit_config.py] *)

(** A row of [RateLimitConfiguration]; the table is the list of its rows. *)
Record RateLimitConfiguration := mkRateLimitConfiguration {
  enabled : bool
}.

(** [objects.exists()] *)
Definition objects_exists (table : list RateLimitConfiguration) : bool :=
  match table with
  | [] => false
  | _ :: _ => true
  end.

(** [objects.create(enabled=...)] *)
Definition objects_create (enabled : bool) (table : list RateLimitConfiguration)
    : list RateLimitConfiguration :=
  table ++ [mkRateLimitConfiguration enabled].

Definition forwards (table : list RateLimitConfiguration) : list RateLimitConfiguration :=
  if negb (objects_exists table) then objects_create true table else table.

(** * Properties *)

(** ** Composite keys *)

(** Whether a string contains the separator of composite keys. *)
Fixpoint has_dot (s : string) : bool :=
  match s with
  | EmptyString => false
  | String c s' => if Ascii.eqb c "."%char then true else has_dot s'
  end.

(** The order [sorted_by key] sorts into. *)
Definition key_le {A} (key : A -> string) (a b : A) : Prop :=
  String.leb (key a) (key b) = true.

(** ** Observations on the request cache *)

(** The dictionary found under [cache_name] and then [sub] (empty when either
    level is missing). *)
Definition cache_dict (cache_name sub : string)
    (rc : gmap string (gmap string (gmap string bool))) : gmap string bool :=
  default ∅ (rc !! cache_name ≫= fun ns => ns !! sub).

(** The request cache with [d] as the dictionary under [cache_name], [sub]. *)
Definition cache_with (cache_name sub : string) (d : gmap string bool)
    (rc : gmap string (gmap string (gmap string bool)))
    : gmap string (gmap string (gmap string bool)) :=
  <[cache_name := <[sub := d]> (default ∅ (rc !! cache_name))]> rc.

(** The value memoized for a composite key in the flags or switches
    dictionary, if any. *)
Definition cached_value (sub key : string)
    (rc : gmap string (gmap string (gmap string bool))) : option bool :=
  cache_dict "WaffleNamespace" sub rc !! key.

(** The world after a computation consulted [evs] (most recent first) and
    left [rc] as the request cache. *)
Definition after (evs : list Event) (rc : gmap string (gmap string (gmap string bool)))
    (w : World) : World :=
  mkWorld rc (switches w) (flags w) (course_overrides w) (evs ++ consulted w).

(** ** The flag of [course_experience/__init__.py] and example requests *)

Definition WAFFLE_FLAG_NAMESPACE : WaffleNamespace.t :=
  WaffleNamespace.mk "course_experience" (Some "Course Experience: ").

Definition UNIFIED_COURSE_EXPERIENCE_FLAG : WaffleFlag.t :=
  WaffleFlag.mk WAFFLE_FLAG_NAMESPACE "unified_course_experience".

(** A request that has resolved nothing yet, with nothing configured. *)
Definition blank_request : World := mkWorld ∅ ∅ ∅ ∅ [].

(** A request that has resolved nothing yet; the flag is globally off and
    forced on for one course. *)
Definition forced_on_request : World :=
  mkWorld ∅ ∅
    {[ "course_experience.unified_course_experience" := false ]}
    {[ ("course_experience.unified_course_experience", "course-v1:edX+DemoX+1T2017") := on ]}
    [].

(** The same request after the flag was evaluated for the forced-on course
    and with all stores emptied since. *)
Definition forced_on_request_later : World :=
  mkWorld
    (request_cache
       (snd (CourseOverrideWaffleFlag.is_enabled UNIFIED_COURSE_EXPERIENCE_FLAG
               (ArgCourseKey "course-v1:edX+DemoX+1T2017") forced_on_request)))
    ∅ ∅ ∅ [].

(** ** [course_experience/__init__.py] *)

Definition course_home_url_name (course_key : PyArg) : M string :=
  enabled <- CourseOverrideWaffleFlag.is_enabled UNIFIED_COURSE_EXPERIENCE_FLAG course_key ;;
  if enabled then ret "openedx.course_experience.course_home" else ret "info".

(** ** Further observations *)

(** The switch table once the scoped override of the switch [key], which
    found [old] there on entry, has ended. *)
Definition restore_switch (old : option bool) (key : string) (s : gmap string bool)
    : gmap string bool :=
  match old with
  | Some v => <[key := v]> s
  | None => delete key s
  end.

(** The value [is_enabled] gives for a switch: the memoized one, else the
    store's. *)
Definition effective_switch (key : string) (w : World) : bool :=
  default (default false (switches w !! key))
          (cached_value "switches" key (request_cache w)).

(** What one evaluation may leave behind: the stores as they were, and the
    request cache changed at most under the name WaffleNamespace. *)
Definition same_footprint (w w' : World) : Prop :=
  switches w' = switches w /\
  flags w' = flags w /\
  course_overrides w' = course_overrides w /\
  forall cache_name, cache_name <> "WaffleNamespace" ->
    request_cache w' !! cache_name = request_cache w !! cache_name.

(** ** The request cache *)

Section RequestCache.
Implicit Types rc : gmap string (gmap string (gmap string bool)).

Lemma cache_dict_with cn sub d rc : cache_dict cn sub (cache_with cn sub d rc) = d.
Proof.
  unfold cache_dict, cache_with. rewrite lookup_insert_eq. simpl.
  by rewrite lookup_insert_eq.
Qed.

Lemma cache_with_with cn sub d d' rc :
  cache_with cn sub d' (cache_with cn sub d rc) = cache_with cn sub d' rc.
Proof.
  unfold cache_with. rewrite lookup_insert_eq. simpl.
  by rewrite !insert_insert_eq.
Qed.

(** A dictionary that holds a key is attached to the request cache. *)
Lemma cache_with_dict cn sub key v rc :
  cache_dict cn sub rc !! key = Some v ->
  cache_with cn sub (cache_dict cn sub rc) rc = rc.
Proof.
  unfold cache_dict, cache_with.
  destruct (rc !! cn) as [ns|] eqn:Hns; simpl; [|by rewrite lookup_empty].
  destruct (ns !! sub) as [d|] eqn:Hd; simpl; [|by rewrite lookup_empty].
  intros _. rewrite (insert_id ns sub d Hd). by apply insert_id.
Qed.

Lemma cache_with_insert_id cn sub key v rc :
  cache_dict cn sub rc !! key = Some v ->
  cache_with cn sub (<[key := v]> (cache_dict cn sub rc)) rc = rc.
Proof.
  intros H. rewrite (insert_id _ _ _ H). by eapply cache_with_dict.
Qed.

Lemma namespace_dict_eq cn sub (w : World) :
  namespace_dict cn sub w =
    (Ok (cache_dict cn sub (request_cache w)),
     after [EvRequestCache cn]
       (cache_with cn sub (cache_dict cn sub (request_cache w)) (request_cache w)) w).
Proof.
  unfold namespace_dict, get_request_cache, bind, tell, get_world, set_request_cache,
    ret, after, cache_dict, cache_with. simpl.
  destruct (request_cache w !! cn) as [ns|] eqn:Hns; simpl.
  - destruct (ns !! sub) as [d|] eqn:Hd; simpl; [|done].
    by rewrite (insert_id ns sub d Hd), (insert_id _ cn ns Hns).
  - rewrite lookup_empty. simpl. by rewrite insert_insert_eq.
Qed.

Lemma namespace_dict_setitem_eq cn sub key v (w : World) :
  namespace_dict_setitem cn sub key v w =
    (Ok tt,
     after [EvRequestCache cn]
       (cache_with cn sub (<[key := v]> (cache_dict cn sub (request_cache w)))
          (request_cache w)) w).
Proof.
  unfold namespace_dict_setitem, bind. rewrite namespace_dict_eq.
  unfold get_world, set_request_cache, after, cache_with. simpl.
  rewrite lookup_insert_eq. simpl. by rewrite !insert_insert_eq.
Qed.

End RequestCache.

(** ** Memoization in the request cache *)

Section Memoization.
Import WaffleNamespace.
Implicit Types rc : gmap string (gmap string (gmap string bool)).

Ltac run := unfold bind, ret, raise, tell, get_world; simpl.

Lemma switch_is_enabled_hit (self : t) (switch_name : string) (w : World) (v : bool) :
  cached_value "switches" (_namespaced_name self switch_name) (request_cache w) = Some v ->
  WaffleSwitchNamespace.is_enabled self switch_name w =
    (Ok v, after [EvRequestCache "WaffleNamespace"] (request_cache w) w).
Proof.
  intros Hhit. unfold WaffleSwitchNamespace.is_enabled, WaffleSwitchNamespace._cached_switches.
  unfold bind at 1. rewrite namespace_dict_eq.
  unfold cached_value in Hhit. rewrite Hhit. run.
  by rewrite (cache_with_dict _ _ _ _ _ Hhit).
Qed.

Lemma switch_is_enabled_miss (self : t) (switch_name : string) (w : World) :
  let key := _namespaced_name self switch_name in
  let v := default false (switches w !! key) in
  cached_value "switches" key (request_cache w) = None ->
  WaffleSwitchNamespace.is_enabled self switch_name w =
    (Ok v,
     after [EvRequestCache "WaffleNamespace"; EvSwitchStore key; EvRequestCache "WaffleNamespace"]
       (cache_with "WaffleNamespace" "switches"
          (<[key := v]> (cache_dict "WaffleNamespace" "switches" (request_cache w)))
          (request_cache w)) w).
Proof.
  intros key v Hmiss.
  unfold WaffleSwitchNamespace.is_enabled, WaffleSwitchNamespace._cached_switches.
  unfold bind at 1. rewrite namespace_dict_eq.
  unfold cached_value in Hmiss. fold key. rewrite Hmiss.
  unfold switch_is_active. run. rewrite namespace_dict_setitem_eq. simpl.
  rewrite cache_dict_with, cache_with_with. reflexivity.
Qed.

Lemma flag_is_enabled_hit (self : t) (flag_name : string)
    (callback : option (string -> M (option bool))) (w : World) (v : bool) :
  cached_value "flags" (_namespaced_name self flag_name) (request_cache w) = Some v ->
  WaffleFlagNamespace.is_enabled self flag_name callback w =
    (Ok v, after [EvRequestCache "WaffleNamespace"] (request_cache w) w).
Proof.
  intros Hhit. unfold WaffleFlagNamespace.is_enabled, WaffleFlagNamespace._cached_flags.
  unfold bind at 1. rewrite namespace_dict_eq.
  unfold cached_value in Hhit. rewrite Hhit. run.
  by rewrite (cache_with_dict _ _ _ _ _ Hhit).
Qed.

(** Whatever branch resolved the flag, the value returned is the value left
    in the request cache. *)
Lemma flag_is_enabled_cached (self : t) (flag_name : string)
    (callback : option (string -> M (option bool))) (w w1 : World) (v : bool) :
  WaffleFlagNamespace.is_enabled self flag_name callback w = (Ok v, w1) ->
  cached_value "flags" (_namespaced_name self flag_name) (request_cache w1) = Some v.
Proof.
  destruct (cached_value "flags" (_namespaced_name self flag_name) (request_cache w))
    as [v0|] eqn:Hc.
  - rewrite (flag_is_enabled_hit _ _ _ _ _ Hc). by intros [= <- <-].
  - unfold WaffleFlagNamespace.is_enabled, WaffleFlagNamespace._cached_flags.
    unfold bind at 1. rewrite namespace_dict_eq.
    unfold cached_value in Hc. rewrite Hc.
    set (w0 := after _ _ w). clearbody w0.
    assert (Hset : forall (w2 : World) (b : bool),
      (namespace_dict_setitem "WaffleNamespace" "flags" (_namespaced_name self flag_name) b ;;
       ret b) w2 = (Ok v, w1) ->
      cached_value "flags" (_namespaced_name self flag_name) (request_cache w1) = Some v).
    { intros w2 b. unfold bind. rewrite namespace_dict_setitem_eq. unfold ret.
      intros [= <- <-]. simpl. unfold cached_value.
      by rewrite cache_dict_with, lookup_insert_eq. }
    unfold bind at 1.
    destruct callback as [f|].
    + unfold bind at 1. unfold tell at 1.
      destruct (f _ _) as [[[b|]|e] w2]; [apply Hset| |discriminate].
      unfold bind at 1. unfold flag_is_active. run. apply Hset.
    + unfold ret at 1. unfold bind at 1. unfold flag_is_active. run. apply Hset.
Qed.

Lemma switch_is_enabled_cached (self : t) (switch_name : string) (w : World) :
  exists v w1,
    WaffleSwitchNamespace.is_enabled self switch_name w = (Ok v, w1) /\
    cached_value "switches" (_namespaced_name self switch_name) (request_cache w1) = Some v.
Proof.
  destruct (cached_value "switches" (_namespaced_name self switch_name) (request_cache w))
    as [v0|] eqn:Hc.
  - eexists _, _. split; [by apply switch_is_enabled_hit|]. done.
  - eexists _, _. split; [by apply switch_is_enabled_miss|]. simpl.
    unfold cached_value. by rewrite cache_dict_with, lookup_insert_eq.
Qed.

End Memoization.

(** ** Course overrides *)

Section CourseOverride.
Import WaffleNamespace WaffleFlag.

(** The first evaluation of a course-aware flag in a request, in closed form. *)
Lemma course_flag_is_enabled_miss (self : WaffleFlag.t) (course_id : CourseKey) (w : World) :
  let key := _namespaced_name (waffle_namespace self) (flag_name self) in
  let choice := default unset (course_overrides w !! (key, course_id)) in
  let v := match choice with
           | on => true
           | off => false
           | unset => default false (flags w !! key)
           end in
  cached_value "flags" key (request_cache w) = None ->
  CourseOverrideWaffleFlag.is_enabled self (ArgCourseKey course_id) w =
    (Ok v,
     after (EvRequestCache "WaffleNamespace" ::
            match choice with unset => [EvFlagStore key] | _ => [] end ++
            [EvOverrideStore key course_id; EvCallback key; EvRequestCache "WaffleNamespace"])
       (cache_with "WaffleNamespace" "flags"
          (<[key := v]> (cache_dict "WaffleNamespace" "flags" (request_cache w)))
          (request_cache w)) w).
Proof.
  intros key choice v Hmiss.
  unfold CourseOverrideWaffleFlag.is_enabled, WaffleFlagNamespace.is_enabled,
    WaffleFlagNamespace._cached_flags.
  unfold bind at 1. rewrite namespace_dict_eq.
  unfold cached_value in Hmiss. fold key. rewrite Hmiss.
  unfold CourseOverrideWaffleFlag._get_course_override_callback, override_value,
    flag_is_active, bind, tell, get_world, ret. simpl.
  subst v choice.
  destruct (course_overrides w !! (key, course_id)) as [[]|]; simpl;
    rewrite namespace_dict_setitem_eq; simpl;
    rewrite cache_dict_with, cache_with_with; reflexivity.
Qed.

(** C1, as the code has it: on a request that has not memoized the flag yet,
    a force-on record for the course gives true whatever the global flag says,
    a force-off record gives false, and with no record for the course the
    result is the global flag value; once the request has memoized a value for
    the flag, that value is returned for every course; evaluating the flag
    with no course fails the CourseKey assertion. *)
Theorem course_override_precedence (self : WaffleFlag.t) (course_id : CourseKey) (w : World) :
  let key := _namespaced_name (waffle_namespace self) (flag_name self) in
  (cached_value "flags" key (request_cache w) = None ->
     (course_overrides w !! (key, course_id) = Some on ->
        fst (CourseOverrideWaffleFlag.is_enabled self (ArgCourseKey course_id) w) = Ok true) /\
     (course_overrides w !! (key, course_id) = Some off ->
        fst (CourseOverrideWaffleFlag.is_enabled self (ArgCourseKey course_id) w) = Ok false) /\
     (course_overrides w !! (key, course_id) = None ->
        fst (CourseOverrideWaffleFlag.is_enabled self (ArgCourseKey course_id) w) =
          Ok (default false (flags w !! key)))) /\
  (forall v, cached_value "flags" key (request_cache w) = Some v ->
     fst (CourseOverrideWaffleFlag.is_enabled self (ArgCourseKey course_id) w) = Ok v) /\
  CourseOverrideWaffleFlag.is_enabled self ArgNone w =
    (Raise (AssertionError "The course_id 'None' must be a CourseKey."), w).
Proof.
  intros key. split; [|split].
  - intros Hmiss.
    rewrite (course_flag_is_enabled_miss self course_id w Hmiss). fold key. simpl.
    repeat split; intros ->; reflexivity.
  - intros v Hhit. unfold CourseOverrideWaffleFlag.is_enabled.
    by rewrite (flag_is_enabled_hit _ _ _ _ _ Hhit).
  - reflexivity.
Qed.

End CourseOverride.

Lemma course_override_precedence_witness :
  fst (CourseOverrideWaffleFlag.is_enabled UNIFIED_COURSE_EXPERIENCE_FLAG
         (ArgCourseKey "course-v1:edX+DemoX+1T2017") forced_on_request) = Ok true.
Proof.
  apply (proj1 (proj1 (course_override_precedence UNIFIED_COURSE_EXPERIENCE_FLAG
                         "course-v1:edX+DemoX+1T2017" forced_on_request)
                  ltac:(vm_compute; reflexivity))).
  vm_compute; reflexivity.
Defined.

(** C1, as stated, fails on a request where the flag is globally off and
    forced on for one course: with no course the call raises instead of
    returning false; after the flag was evaluated for a course without an
    override, the forced-on course gets false; and after it was evaluated for
    the forced-on course, a course without an override gets true. *)
Lemma course_override_precedence_fails :
  let flag := UNIFIED_COURSE_EXPERIENCE_FLAG in
  let forced := ArgCourseKey "course-v1:edX+DemoX+1T2017" in
  let other := ArgCourseKey "course-v1:edX+Other+1T2017" in
  fst (CourseOverrideWaffleFlag.is_enabled flag ArgNone forced_on_request) =
    Raise (AssertionError "The course_id 'None' must be a CourseKey.") /\
  fst ((CourseOverrideWaffleFlag.is_enabled flag other ;;
        CourseOverrideWaffleFlag.is_enabled flag forced) forced_on_request) = Ok false /\
  fst ((CourseOverrideWaffleFlag.is_enabled flag forced ;;
        CourseOverrideWaffleFlag.is_enabled flag other) forced_on_request) = Ok true.
Proof. vm_compute. auto. Qed.

Section MemoizationTheorems.
Import WaffleNamespace.

(** The first evaluation of a plain flag in a request, in closed form. *)
Lemma plain_flag_is_enabled_miss (self : t) (flag_name : string) (w : World) :
  let key := _namespaced_name self flag_name in
  let v := default false (flags w !! key) in
  cached_value "flags" key (request_cache w) = None ->
  WaffleFlagNamespace.is_enabled self flag_name None w =
    (Ok v,
     after [EvRequestCache "WaffleNamespace"; EvFlagStore key; EvRequestCache "WaffleNamespace"]
       (cache_with "WaffleNamespace" "flags"
          (<[key := v]> (cache_dict "WaffleNamespace" "flags" (request_cache w)))
          (request_cache w)) w).
Proof.
  intros key v Hmiss.
  unfold WaffleFlagNamespace.is_enabled, WaffleFlagNamespace._cached_flags.
  unfold bind at 1. rewrite namespace_dict_eq.
  unfold cached_value in Hmiss. fold key. rewrite Hmiss.
  unfold flag_is_active, bind, tell, get_world, ret. simpl.
  rewrite namespace_dict_setitem_eq. simpl.
  rewrite cache_dict_with, cache_with_with. reflexivity.
Qed.

Lemma plain_flag_is_enabled_returns (self : t) (flag_name : string) (w : World) :
  exists v w1, WaffleFlagNamespace.is_enabled self flag_name None w = (Ok v, w1).
Proof.
  destruct (cached_value "flags" (_namespaced_name self flag_name) (request_cache w))
    as [v0|] eqn:Hc.
  - eexists _, _. by apply flag_is_enabled_hit.
  - eexists _, _. by apply plain_flag_is_enabled_miss.
Qed.

Lemma course_flag_is_enabled_returns (self : WaffleFlag.t) (course_id : CourseKey) (w : World) :
  exists v w1,
    CourseOverrideWaffleFlag.is_enabled self (ArgCourseKey course_id) w = (Ok v, w1).
Proof.
  destruct (cached_value "flags"
              (_namespaced_name (WaffleFlag.waffle_namespace self) (WaffleFlag.flag_name self))
              (request_cache w)) as [v0|] eqn:Hc.
  - eexists _, _. unfold CourseOverrideWaffleFlag.is_enabled. by apply flag_is_enabled_hit.
  - eexists _, _. by apply course_flag_is_enabled_miss.
Qed.

(** C2: within one request, a second [is_enabled] for the same switch or flag
    returns the value of the first, whatever the external stores hold by then
    and whatever callback is passed; the second call consults the request
    cache only. Switches, plain flags and course-aware flags always return;
    a flag evaluated through an arbitrary callback returns unless the
    callback raises. *)
Theorem is_enabled_memoized_per_request :
  (forall (self : t) (switch_name : string) (w : World),
     exists v w1,
       WaffleSwitchNamespace.is_enabled self switch_name w = (Ok v, w1) /\
       forall w2, request_cache w2 = request_cache w1 ->
         WaffleSwitchNamespace.is_enabled self switch_name w2 =
           (Ok v, after [EvRequestCache "WaffleNamespace"] (request_cache w2) w2)) /\
  (forall (self : t) (flag_name : string) (callback : option (string -> M (option bool)))
          (w w1 : World) (v : bool),
     WaffleFlagNamespace.is_enabled self flag_name callback w = (Ok v, w1) ->
     forall (callback2 : option (string -> M (option bool))) (w2 : World),
       request_cache w2 = request_cache w1 ->
       WaffleFlagNamespace.is_enabled self flag_name callback2 w2 =
         (Ok v, after [EvRequestCache "WaffleNamespace"] (request_cache w2) w2)) /\
  (forall (flag : WaffleFlag.t) (w : World),
     exists v w1, WaffleFlag.is_enabled flag w = (Ok v, w1)) /\
  (forall (flag : WaffleFlag.t) (course_id : CourseKey) (w : World),
     exists v w1,
       CourseOverrideWaffleFlag.is_enabled flag (ArgCourseKey course_id) w = (Ok v, w1)).
Proof.
  split; [|split; [|split]].
  - intros self switch_name w.
    destruct (switch_is_enabled_cached self switch_name w) as (v & w1 & Hrun & Hc).
    exists v, w1. split; [done|]. intros w2 Hrc.
    apply switch_is_enabled_hit. by rewrite Hrc.
  - intros self flag_name callback w w1 v Hrun callback2 w2 Hrc.
    apply flag_is_enabled_hit. rewrite Hrc. by eapply flag_is_enabled_cached.
  - intros flag w. apply plain_flag_is_enabled_returns.
  - intros flag course_id w. apply course_flag_is_enabled_returns.
Qed.

Lemma is_enabled_memoized_per_request_witness :
  WaffleFlagNamespace.is_enabled WAFFLE_FLAG_NAMESPACE "unified_course_experience" None
    forced_on_request_later =
  (Ok true,
   after [EvRequestCache "WaffleNamespace"] (request_cache forced_on_request_later)
     forced_on_request_later).
Proof.
  refine (proj1 (proj2 is_enabled_memoized_per_request)
            WAFFLE_FLAG_NAMESPACE "unified_course_experience"
            (Some (CourseOverrideWaffleFlag._get_course_override_callback
                     UNIFIED_COURSE_EXPERIENCE_FLAG "course-v1:edX+DemoX+1T2017"))
            forced_on_request
            (snd (CourseOverrideWaffleFlag.is_enabled UNIFIED_COURSE_EXPERIENCE_FLAG
                    (ArgCourseKey "course-v1:edX+DemoX+1T2017") forced_on_request))
            true _ None forced_on_request_later _).
  - vm_compute; reflexivity.
  - vm_compute; reflexivity.
Defined.

(** C9: the memoized value lives in the request cache named WaffleNamespace,
    in its flags (or switches) dictionary, under the composite name alone: a
    value resolved through one namespace object is returned by any other
    namespace object of the same namespace string, for the same name, with the
    request cache as the only thing consulted. *)
Theorem request_cache_shared_between_instances (self1 self2 : t) (setting_name : string) :
  namespace self1 = namespace self2 ->
  (forall (callback : option (string -> M (option bool))) (w w1 : World) (v : bool),
     WaffleFlagNamespace.is_enabled self1 setting_name callback w = (Ok v, w1) ->
     ((request_cache w1 !! "WaffleNamespace" ≫=
         fun ns : gmap string (gmap string bool) => ns !! "flags")
        ≫= (fun d : gmap string bool => d !! (namespace self1 +:+ "." +:+ setting_name))) = Some v /\
     forall (callback2 : option (string -> M (option bool))) (w2 : World),
       request_cache w2 = request_cache w1 ->
       WaffleFlagNamespace.is_enabled self2 setting_name callback2 w2 =
         (Ok v, after [EvRequestCache "WaffleNamespace"] (request_cache w2) w2)) /\
  (forall (w : World),
     exists v w1,
       WaffleSwitchNamespace.is_enabled self1 setting_name w = (Ok v, w1) /\
       ((request_cache w1 !! "WaffleNamespace" ≫=
           fun ns : gmap string (gmap string bool) => ns !! "switches")
          ≫= (fun d : gmap string bool => d !! (namespace self1 +:+ "." +:+ setting_name))) = Some v /\
       forall w2, request_cache w2 = request_cache w1 ->
         WaffleSwitchNamespace.is_enabled self2 setting_name w2 =
           (Ok v, after [EvRequestCache "WaffleNamespace"] (request_cache w2) w2)).
Proof.
  intros Hns.
  assert (Hkey : _namespaced_name self2 setting_name = _namespaced_name self1 setting_name).
  { unfold _namespaced_name. by rewrite Hns. }
  assert (Hpath : forall sub rc v,
    cached_value sub (_namespaced_name self1 setting_name) rc = Some v ->
    ((rc !! "WaffleNamespace" ≫=
        fun ns : gmap string (gmap string bool) => ns !! sub)
       ≫= (fun d : gmap string bool => d !! (namespace self1 +:+ "." +:+ setting_name))) = Some v).
  { intros sub rc v. unfold cached_value, cache_dict, _namespaced_name.
    destruct (rc !! "WaffleNamespace") as [ns|]; simpl; [|by rewrite lookup_empty].
    destruct (ns !! sub) as [d|]; simpl; [done|by rewrite lookup_empty]. }
  split.
  - intros callback w w1 v Hrun.
    apply flag_is_enabled_cached in Hrun. split; [by apply Hpath|].
    intros callback2 w2 Hrc. apply flag_is_enabled_hit. by rewrite Hkey, Hrc.
  - intros w.
    destruct (switch_is_enabled_cached self1 setting_name w) as (v & w1 & Hrun & Hc).
    exists v, w1. split; [done|]. split; [by apply Hpath|].
    intros w2 Hrc. apply switch_is_enabled_hit. by rewrite Hkey, Hrc.
Qed.

Lemma request_cache_shared_between_instances_witness :
  exists v w1,
    WaffleSwitchNamespace.is_enabled (mk "grades" None) "assume_zero" blank_request = (Ok v, w1) /\
    WaffleSwitchNamespace.is_enabled (mk "grades" (Some "Grades: ")) "assume_zero" w1 =
      (Ok v, after [EvRequestCache "WaffleNamespace"] (request_cache w1) w1).
Proof.
  destruct (proj2 (request_cache_shared_between_instances
                     (mk "grades" None) (mk "grades" (Some "Grades: ")) "assume_zero" eq_refl)
              blank_request) as (v & w1 & Hrun & _ & Hsecond).
  exists v, w1. split; [exact Hrun|]. apply Hsecond. reflexivity.
Defined.

(** C5: an argument that is not a CourseKey makes the course-aware
    [is_enabled] raise the assertion error with the world untouched: no
    cache and no store has been consulted; with a CourseKey argument the call
    returns a value. *)
Theorem course_flag_requires_course_key (flag : WaffleFlag.t) (course_id : PyArg) (w : World) :
  (is_course_key course_id = false ->
   CourseOverrideWaffleFlag.is_enabled flag course_id w =
     (Raise (AssertionError
               ("The course_id '" +:+ py_str course_id +:+ "' must be a CourseKey.")), w)) /\
  (is_course_key course_id = true ->
   exists v w1, CourseOverrideWaffleFlag.is_enabled flag course_id w = (Ok v, w1)).
Proof.
  split.
  - destruct course_id; simpl; [done|done|discriminate].
  - destruct course_id as [| |k]; simpl; [discriminate|discriminate|].
    intros _. apply course_flag_is_enabled_returns.
Qed.

Lemma course_flag_requires_course_key_witness :
  CourseOverrideWaffleFlag.is_enabled UNIFIED_COURSE_EXPERIENCE_FLAG
    (ArgStr "course-v1:edX+DemoX+1T2017") forced_on_request =
  (Raise (AssertionError "The course_id 'course-v1:edX+DemoX+1T2017' must be a CourseKey."),
   forced_on_request).
Proof.
  apply (proj1 (course_flag_requires_course_key UNIFIED_COURSE_EXPERIENCE_FLAG
                  (ArgStr "course-v1:edX+DemoX+1T2017") forced_on_request)).
  reflexivity.
Defined.

End MemoizationTheorems.

(** ** Scoped override of a switch *)

Section ScopedOverride.
Import WaffleNamespace.
Context {A : Type}.

(** What [override] restores: the value the switch has on entry, memoized or
    read from the store. *)
Lemma switch_is_enabled_eq (self : t) (switch_name : string) (w : World) :
  let key := _namespaced_name self switch_name in
  let previous :=
    default (default false (switches w !! key))
            (cached_value "switches" key (request_cache w)) in
  exists evs,
    WaffleSwitchNamespace.is_enabled self switch_name w =
      (Ok previous,
       after evs
         (cache_with "WaffleNamespace" "switches"
            (<[key := previous]> (cache_dict "WaffleNamespace" "switches" (request_cache w)))
            (request_cache w)) w).
Proof.
  intros key previous. subst previous.
  destruct (cached_value "switches" key (request_cache w)) as [v0|] eqn:Hc; simpl.
  - eexists. rewrite (switch_is_enabled_hit _ _ _ _ Hc).
    fold key. by rewrite (cache_with_insert_id _ _ _ _ _ Hc).
  - eexists. by rewrite (switch_is_enabled_miss _ _ _ Hc).
Qed.

(** Setting a key and setting it back. *)
Lemma cache_with_set_reset (sub key : string) (v v' : bool)
    (rc : gmap string (gmap string (gmap string bool))) :
  let rc1 := cache_with "WaffleNamespace" sub
               (<[key := v]> (cache_dict "WaffleNamespace" sub rc)) rc in
  let rc2 := cache_with "WaffleNamespace" sub
               (<[key := v']> (cache_dict "WaffleNamespace" sub rc1)) rc1 in
  cache_with "WaffleNamespace" sub
    (<[key := v]> (cache_dict "WaffleNamespace" sub rc2)) rc2 = rc1.
Proof.
  intros rc1 rc2. subst rc2.
  rewrite cache_dict_with, cache_with_with, insert_insert_eq.
  subst rc1. by rewrite cache_dict_with, cache_with_with, insert_insert_eq.
Qed.

(** C3, as the code has it: whatever the body of the scope does and however
    it ends, by returning or by raising, the scope ends the same way and
    leaves in the request cache the value the switch had on entry (the
    memoized value or, when none was memoized, the value read from the store,
    which stays memoized), and the store's entry of the switch as it was on
    entry, other entries as the body left them. When the body itself changes
    neither, the store is exactly as before entry, and so is the request cache
    if it held a value for the switch on entry. *)
Theorem override_restores_previous_value (self : t) (switch_name : string) (active : bool)
    (body : M A) (w : World) :
  let key := _namespaced_name self switch_name in
  let previous :=
    default (default false (switches w !! key))
            (cached_value "switches" key (request_cache w)) in
  exists w_in : World,
    cached_value "switches" key (request_cache w_in) = Some active /\
    switches w_in = <[key := active]> (switches w) /\
    forall (r : result A) (w_out : World),
      body w_in = (r, w_out) ->
      exists w' : World,
        WaffleSwitchNamespace.override self switch_name active body w = (r, w') /\
        cached_value "switches" key (request_cache w') = Some previous /\
        switches w' !! key = switches w !! key /\
        (forall k, k <> key -> switches w' !! k = switches w_out !! k) /\
        (request_cache w_out = request_cache w_in -> switches w_out = switches w_in ->
         switches w' = switches w /\
         request_cache w' =
           cache_with "WaffleNamespace" "switches"
             (<[key := previous]> (cache_dict "WaffleNamespace" "switches" (request_cache w)))
             (request_cache w) /\
         (is_Some (cached_value "switches" key (request_cache w)) ->
          request_cache w' = request_cache w)).
Proof.
  intros key previous.
  destruct (switch_is_enabled_eq self switch_name w) as [evs Hprev].
  fold key previous in Hprev.
  set (rc1 := cache_with "WaffleNamespace" "switches"
                (<[key := previous]> (cache_dict "WaffleNamespace" "switches" (request_cache w)))
                (request_cache w)) in *.
  set (rc2 := cache_with "WaffleNamespace" "switches"
                (<[key := active]> (cache_dict "WaffleNamespace" "switches" rc1)) rc1).
  exists (mkWorld rc2 (<[key := active]> (switches w)) (flags w) (course_overrides w)
            (EvRequestCache "WaffleNamespace" :: evs ++ consulted w)).
  split; [|split; [reflexivity|]].
  { simpl. unfold cached_value, rc2. by rewrite cache_dict_with, lookup_insert_eq. }
  intros r w_out Hbody.
  unfold WaffleSwitchNamespace.override, WaffleSwitchNamespace.override_for_request,
    WaffleSwitchNamespace.override_in_model, waffle_override_switch.
  fold key. unfold bind at 1. rewrite Hprev.
  unfold try_finally at 1. unfold bind at 1. rewrite namespace_dict_setitem_eq.
  unfold bind, get_world, set_switches, try_finally. simpl. fold rc1 rc2.
  rewrite Hbody.
  destruct (switches w !! key) as [old|] eqn:Hold; simpl;
    rewrite namespace_dict_setitem_eq; simpl.
  - eexists. split; [reflexivity|]. simpl.
    split; [unfold cached_value; by rewrite cache_dict_with, lookup_insert_eq|].
    split; [by rewrite lookup_insert_eq|].
    split; [intros k Hk; by rewrite lookup_insert_ne|].
    intros Hrc Hsw. rewrite Hrc, Hsw. simpl.
    split; [rewrite insert_insert_eq; by apply insert_id|].
    assert (Hback : cache_with "WaffleNamespace" "switches"
                      (<[key := previous]> (cache_dict "WaffleNamespace" "switches" rc2)) rc2
                    = rc1) by apply cache_with_set_reset.
    split; [exact Hback|].
    intros [v0 Hv0]. rewrite Hback. unfold rc1, previous. rewrite Hv0. simpl.
    by apply cache_with_insert_id.
  - eexists. split; [reflexivity|]. simpl.
    split; [unfold cached_value; by rewrite cache_dict_with, lookup_insert_eq|].
    split; [by rewrite lookup_delete_eq|].
    split; [intros k Hk; by rewrite lookup_delete_ne|].
    intros Hrc Hsw. rewrite Hrc, Hsw. simpl.
    split; [by apply delete_insert_id|].
    assert (Hback : cache_with "WaffleNamespace" "switches"
                      (<[key := previous]> (cache_dict "WaffleNamespace" "switches" rc2)) rc2
                    = rc1) by apply cache_with_set_reset.
    split; [exact Hback|].
    intros [v0 Hv0]. rewrite Hback. unfold rc1, previous. rewrite Hv0. simpl.
    by apply cache_with_insert_id.
Qed.

End ScopedOverride.

Lemma override_restores_previous_value_witness :
  exists w' : World,
    WaffleSwitchNamespace.override (WaffleNamespace.mk "grades" None) "assume_zero" true
      (raise (A := unit) (Exception "boom")) blank_request = (Raise (Exception "boom"), w') /\
    switches w' = switches blank_request /\
    cached_value "switches" "grades.assume_zero" (request_cache w') = Some false.
Proof.
  destruct (override_restores_previous_value (WaffleNamespace.mk "grades" None) "assume_zero"
              true (raise (A := unit) (Exception "boom")) blank_request)
    as (w_in & _ & _ & Hscope).
  destruct (Hscope (Raise (Exception "boom")) w_in eq_refl)
    as (w' & Hrun & Hcached & _ & _ & Hframe).
  exists w'. split; [exact Hrun|]. split; [|exact Hcached].
  apply Hframe; reflexivity.
Defined.

(** C3, as stated, fails on a request that has not resolved the switch yet:
    after the scope, left normally or by an error, the request cache holds a
    value for the switch that it did not hold before entry. *)
Lemma override_leaves_switch_memoized :
  let self := WaffleNamespace.mk "grades" None in
  cached_value "switches" "grades.assume_zero" (request_cache blank_request) = None /\
  request_cache (snd (WaffleSwitchNamespace.override self "assume_zero" true (ret tt)
                        blank_request)) <> request_cache blank_request /\
  request_cache (snd (WaffleSwitchNamespace.override self "assume_zero" true
                        (raise (A := unit) (Exception "boom")) blank_request))
    <> request_cache blank_request.
Proof.
  split; [reflexivity|].
  split; intros H;
    apply (f_equal (cached_value "switches" "grades.assume_zero")) in H;
    vm_compute in H; discriminate H.
Qed.

Section CompositeKeys.
Import WaffleNamespace.

Lemma append_dot_inj (p1 p2 n1 n2 : string) :
  has_dot p1 = false -> has_dot p2 = false ->
  p1 +:+ "." +:+ n1 = p2 +:+ "." +:+ n2 -> p1 = p2 /\ n1 = n2.
Proof.
  revert p2. induction p1 as [|c p1 IH]; intros [|d p2]; simpl.
  - intros _ _ H. by inversion H.
  - intros _ Hd H. inversion H; subst. by rewrite Ascii.eqb_refl in Hd.
  - intros Hc _ H. inversion H; subst. by rewrite Ascii.eqb_refl in Hc.
  - intros Hc Hd H. inversion H; subst.
    destruct (Ascii.eqb d "."); [done|].
    destruct (IH p2 Hc Hd) as [-> ->]; done.
Qed.

Lemma append_inv_head (p n1 n2 : string) : p +:+ n1 = p +:+ n2 -> n1 = n2.
Proof. induction p as [|c p IH]; simpl; [done|]. intros H. inversion H. auto. Qed.

(** C4, as the code has it: the composite key is the namespace, a dot and the
    name; two (namespace, name) pairs with equal composite keys have identical
    components whenever the two namespaces are equal or neither namespace
    contains a dot. *)
Theorem namespaced_name_key_injective (self1 self2 : t) (name1 name2 : string) :
  namespace self1 = namespace self2 \/
    (has_dot (namespace self1) = false /\ has_dot (namespace self2) = false) ->
  _namespaced_name self1 name1 = namespace self1 +:+ "." +:+ name1 /\
  (_namespaced_name self1 name1 = _namespaced_name self2 name2 ->
   namespace self1 = namespace self2 /\ name1 = name2).
Proof.
  intros Hns. split; [reflexivity|].
  unfold _namespaced_name. intros Hkey.
  destruct Hns as [Heq | [H1 H2]].
  - split; [done|]. rewrite Heq in Hkey.
    apply append_inv_head in Hkey. simpl in Hkey. by inversion Hkey.
  - by apply append_dot_inj.
Qed.

Lemma namespaced_name_key_injective_witness :
  _namespaced_name (mk "grades" None) "a.b" = "grades.a.b" /\
  (_namespaced_name (mk "grades" None) "a.b" =
     _namespaced_name (mk "grades" (Some "Grades: ")) "a.b" ->
   "grades" = "grades" /\ "a.b" = "a.b").
Proof.
  apply (namespaced_name_key_injective (mk "grades" None) (mk "grades" (Some "Grades: "))
           "a.b" "a.b").
  right. split; reflexivity.
Defined.

(** C4, as stated, fails: the namespace "a.b" with the name "c" and the
    namespace "a" with the name "b.c" have the same composite key. *)
Lemma namespaced_name_collision :
  ~ (forall (self1 self2 : t) (name1 name2 : string),
       _namespaced_name self1 name1 = _namespaced_name self2 name2 ->
       namespace self1 = namespace self2 /\ name1 = name2).
Proof.
  intros H.
  destruct (H (mk "a.b" None) (mk "a" None) "c" "b.c" eq_refl) as [Hns _].
  discriminate Hns.
Qed.

(** C10: constructing a namespace from a missing or empty namespace string
    raises the assertion error; every namespace that was constructed has a
    non-empty namespace string, and every composite key built from it starts
    with that non-empty prefix. *)
Theorem namespace_is_required (namespace_arg log_prefix_arg : option string) :
  (namespace_arg = None \/ namespace_arg = Some "" ->
   __init__ namespace_arg log_prefix_arg =
     Raise (AssertionError "The namespace is required.")) /\
  (forall self, __init__ namespace_arg log_prefix_arg = Ok self ->
     namespace_arg = Some (namespace self) /\
     namespace self <> "" /\
     exists c rest, forall setting_name,
       _namespaced_name self setting_name = String c (rest +:+ "." +:+ setting_name)).
Proof.
  split.
  - intros [-> | ->]; reflexivity.
  - intros self. destruct namespace_arg as [[|c s]|]; simpl; try discriminate.
    intros [= <-]. simpl. split; [done|]. split; [done|].
    exists c, s. reflexivity.
Qed.

Lemma namespace_is_required_witness :
  __init__ (Some "") None = Raise (AssertionError "The namespace is required.") /\
  namespace (mk "course_experience" (Some "Course Experience: ")) <> "".
Proof.
  split.
  - apply (proj1 (namespace_is_required (Some "") None)). right. reflexivity.
  - apply (proj2 (namespace_is_required (Some "course_experience")
                    (Some "Course Experience: ")) _ eq_refl).
Defined.

End CompositeKeys.

(** ** Seeding of the rate-limit configuration *)

Lemma forwards_populated (table : list RateLimitConfiguration) :
  table <> [] -> forwards table = table.
Proof. destruct table; [done|reflexivity]. Qed.

Lemma forwards_iter_populated (n : nat) (table : list RateLimitConfiguration) :
  table <> [] -> Nat.iter n forwards table = table.
Proof.
  intros H. induction n as [|n IH]; simpl; [done|].
  rewrite IH. by apply forwards_populated.
Qed.

(** C7: on an empty table the seeding step inserts exactly one row, with
    [enabled = true]; run again any number of times it adds no second row; on
    any table that has a row, whatever the row holds, it changes nothing. *)
Theorem forwards_idempotent :
  forwards [] = [mkRateLimitConfiguration true] /\
  (forall n, Nat.iter (S n) forwards [] = [mkRateLimitConfiguration true]) /\
  (forall n table, table <> [] -> Nat.iter n forwards table = table) /\
  (forall table, forwards (forwards table) = forwards table).
Proof.
  split; [reflexivity|]. split; [|split].
  - intros n. rewrite Nat.iter_succ_r. by apply forwards_iter_populated.
  - apply forwards_iter_populated.
  - intros [|r t]; reflexivity.
Qed.

Lemma forwards_idempotent_witness :
  Nat.iter 3 forwards [mkRateLimitConfiguration false; mkRateLimitConfiguration false] =
    [mkRateLimitConfiguration false; mkRateLimitConfiguration false].
Proof.
  apply (proj1 (proj2 (proj2 forwards_idempotent)) 3). discriminate.
Defined.

(** ** Sorting *)

Section Sorting.
Context {A : Type} (key : A -> string).

Lemma leb_refl (s : string) : String.leb s s = true.
Proof.
  unfold String.leb. pose proof (String.compare_antisym s s) as H.
  destruct (String.compare s s); simpl in H; done.
Qed.

Lemma insert_by_perm (x : A) (l : list A) : insert_by key x l ≡ₚ x :: l.
Proof.
  induction l as [|y l IH]; simpl; [done|].
  destruct (String.leb (key x) (key y)); [done|].
  rewrite IH. apply Permutation_swap.
Qed.

Lemma sorted_by_perm (l : list A) : sorted_by key l ≡ₚ l.
Proof.
  induction l as [|x l IH]; simpl; [done|].
  rewrite insert_by_perm. by rewrite IH.
Qed.

Lemma insert_by_hdrel (a x : A) (l : list A) :
  key_le key a x -> HdRel (key_le key) a l -> HdRel (key_le key) a (insert_by key x l).
Proof.
  intros Hax Hal. destruct l as [|y l]; simpl.
  - by constructor.
  - destruct (String.leb (key x) (key y)); constructor; [done|].
    by inversion Hal.
Qed.

Lemma insert_by_sorted (x : A) (l : list A) :
  Sorted (key_le key) l -> Sorted (key_le key) (insert_by key x l).
Proof.
  induction 1 as [|y l Hl IH Hhd]; simpl.
  - repeat constructor.
  - destruct (String.leb (key x) (key y)) eqn:Hxy.
    + constructor; [by constructor|]. by constructor.
    + constructor; [done|]. apply insert_by_hdrel; [|done].
      unfold key_le. destruct (String.leb_total (key x) (key y)); congruence.
Qed.

Lemma sorted_by_sorted (l : list A) : Sorted (key_le key) (sorted_by key l).
Proof.
  induction l as [|x l IH]; simpl; [constructor|]. by apply insert_by_sorted.
Qed.

(** Stability: elements of one key keep their relative order. *)
Lemma insert_by_stable (k : string) (x : A) (l : list A) :
  filter (fun a => key a = k) (insert_by key x l) = filter (fun a => key a = k) (x :: l).
Proof.
  induction l as [|y l IH]; simpl; [done|].
  destruct (String.leb (key x) (key y)) eqn:Hxy; [done|].
  rewrite filter_cons, IH, !filter_cons.
  destruct (decide (key y = k)) as [Hy|Hy], (decide (key x = k)) as [Hx|Hx]; try done.
  rewrite Hx, Hy, leb_refl in Hxy. discriminate.
Qed.

Lemma sorted_by_stable (k : string) (l : list A) :
  filter (fun a => key a = k) (sorted_by key l) = filter (fun a => key a = k) l.
Proof.
  induction l as [|x l IH]; simpl; [done|].
  rewrite insert_by_stable, !filter_cons, IH. done.
Qed.

End Sorting.

(** ** Language listing *)

(** C6: the result of [released_languages] is the catalog, in its own order,
    restricted to the entries whose code is a released code or the default
    code; on the catalog en, fr, de with fr released and en the default it is
    en, fr. *)
Theorem released_languages_includes_default :
  (forall (released : list string) (default_code : string) (catalog : list (string * string)),
     released_languages released default_code catalog =
       (fun language_info => mkLanguage (fst language_info) (snd language_info))
         <$> filter (fun language_info =>
                       fst language_info ∈ released \/ fst language_info = default_code)
                    catalog) /\
  released_languages ["fr"] "en" [("en", "English"); ("fr", "Français"); ("de", "Deutsch")] =
    [mkLanguage "en" "English"; mkLanguage "fr" "Français"].
Proof.
  split; [|by vm_compute].
  intros released default_code catalog. unfold released_languages. f_equal.
  apply list_filter_iff. intros [c n]; simpl.
  case_bool_decide as Hin.
  - split; [by left|]. by intros [H | ->].
  - rewrite (sorted_by_perm id (released ++ [default_code])).
    rewrite elem_of_app, list_elem_of_singleton. done.
Qed.

(** C8: [all_languages] returns the catalog with every name translated,
    ordered by translated name, entries of one translated name in catalog
    order; the result depends on the translation only through the names of
    the catalog, so the same catalog and the same translation give the same
    list; two translations can order the codes differently. *)
Theorem all_languages_sorted_by_translation :
  (forall (ugettext : string -> string) (catalog : list (string * string)),
     all_languages ugettext catalog ≡ₚ
       ((fun lang => (fst lang, ugettext (snd lang))) <$> catalog) /\
     Sorted (fun a b => String.leb (snd a) (snd b) = true) (all_languages ugettext catalog) /\
     forall translated,
       filter (fun lang => snd lang = translated) (all_languages ugettext catalog) =
       filter (fun lang => snd lang = translated)
         ((fun lang => (fst lang, ugettext (snd lang))) <$> catalog)) /\
  (forall (ugettext1 ugettext2 : string -> string) (catalog : list (string * string)),
     (forall lang, lang ∈ catalog -> ugettext1 (snd lang) = ugettext2 (snd lang)) ->
     all_languages ugettext1 catalog = all_languages ugettext2 catalog) /\
  (exists (ugettext1 ugettext2 : string -> string) (catalog : list (string * string)),
     fst <$> all_languages ugettext1 catalog <> fst <$> all_languages ugettext2 catalog).
Proof.
  split; [|split].
  - intros ugettext catalog. unfold all_languages. split; [|split].
    + apply sorted_by_perm.
    + apply (sorted_by_sorted snd).
    + intros translated. apply sorted_by_stable.
  - intros u1 u2 catalog Hagree. unfold all_languages. f_equal.
    apply list_fmap_ext. intros i lang Hi. f_equal.
    apply Hagree. by eapply list_elem_of_lookup_2.
  - exists id, (fun s => if decide (s = "English") then "Ingles" else "Frances"),
      [("en", "English"); ("fr", "French")].
    vm_compute. discriminate.
Qed.

Lemma all_languages_sorted_by_translation_witness :
  all_languages id [("fr", "French"); ("en", "English")] =
  all_languages (fun s => if decide (s = "Deutsch") then "German" else s)
    [("fr", "French"); ("en", "English")].
Proof.
  apply (proj1 (proj2 all_languages_sorted_by_translation)).
  intros lang Hin. simpl.
  apply list_elem_of_In in Hin. simpl in Hin.
  destruct Hin as [<- | [<- | []]]; reflexivity.
Defined.

(** * Further properties of the waffle utilities *)

Section CacheFrame.
Implicit Types rc : gmap string (gmap string (gmap string bool)).

Lemma cached_value_set sub key v d rc :
  cached_value sub key (cache_with "WaffleNamespace" sub (<[key := v]> d) rc) = Some v.
Proof. unfold cached_value. by rewrite cache_dict_with, lookup_insert_eq. Qed.

Lemma cached_value_set_other_key sub key key' v rc :
  key' <> key ->
  cached_value sub key'
    (cache_with "WaffleNamespace" sub
       (<[key := v]> (cache_dict "WaffleNamespace" sub rc)) rc) =
  cached_value sub key' rc.
Proof.
  intros Hne. unfold cached_value. rewrite cache_dict_with. by rewrite lookup_insert_ne.
Qed.

Lemma cached_value_other_sub sub sub' key' d rc :
  sub' <> sub ->
  cached_value sub' key' (cache_with "WaffleNamespace" sub d rc) = cached_value sub' key' rc.
Proof.
  intros Hne. unfold cached_value, cache_dict, cache_with.
  rewrite lookup_insert_eq. simpl. rewrite lookup_insert_ne by done.
  by destruct (rc !! "WaffleNamespace").
Qed.

Lemma cached_value_attach sub sub' key' rc :
  cached_value sub' key'
    (cache_with "WaffleNamespace" sub (cache_dict "WaffleNamespace" sub rc) rc) =
  cached_value sub' key' rc.
Proof.
  destruct (decide (sub' = sub)) as [->|Hne].
  - unfold cached_value. by rewrite cache_dict_with.
  - by apply cached_value_other_sub.
Qed.

End CacheFrame.

Section RequestOverride.
Import WaffleNamespace.

Lemma override_for_request_eq (self : t) (switch_name : string) (active : bool) (w : World) :
  WaffleSwitchNamespace.override_for_request self switch_name active w =
    (Ok tt,
     after [EvRequestCache "WaffleNamespace"]
       (cache_with "WaffleNamespace" "switches"
          (<[_namespaced_name self switch_name := active]>
             (cache_dict "WaffleNamespace" "switches" (request_cache w)))
          (request_cache w)) w).
Proof.
  unfold WaffleSwitchNamespace.override_for_request. apply namespace_dict_setitem_eq.
Qed.

(** X1: after [override_for_request], [is_enabled] answers with the overridden
    value for the rest of the request, whatever the switch store holds or comes
    to hold, reading the request cache only; the store itself is not written. *)
Theorem override_for_request_then_is_enabled (self : t) (switch_name : string)
    (active : bool) (w : World) :
  exists w1 : World,
    WaffleSwitchNamespace.override_for_request self switch_name active w = (Ok tt, w1) /\
    switches w1 = switches w /\
    forall w2 : World,
      request_cache w2 = request_cache w1 ->
      WaffleSwitchNamespace.is_enabled self switch_name w2 =
        (Ok active, after [EvRequestCache "WaffleNamespace"] (request_cache w2) w2).
Proof.
  eexists. split; [apply override_for_request_eq|]. split; [reflexivity|].
  intros w2 Hrc. apply switch_is_enabled_hit. rewrite Hrc. simpl.
  apply cached_value_set.
Qed.

Lemma override_for_request_then_is_enabled_witness :
  exists w1 : World,
    WaffleSwitchNamespace.override_for_request (mk "grades" None) "assume_zero" true
      blank_request = (Ok tt, w1) /\
    WaffleSwitchNamespace.is_enabled (mk "grades" None) "assume_zero" w1 =
      (Ok true, after [EvRequestCache "WaffleNamespace"] (request_cache w1) w1).
Proof.
  destruct (override_for_request_then_is_enabled (mk "grades" None) "assume_zero" true
              blank_request) as (w1 & Hrun & _ & Hread).
  exists w1. split; [exact Hrun|]. apply Hread. reflexivity.
Defined.

(** X2: [override_for_request] changes the memoized value of no other switch
    and of no flag. *)
Theorem override_for_request_frame (self : t) (switch_name : string) (active : bool)
    (w : World) (key' : string) :
  key' <> _namespaced_name self switch_name ->
  let w1 := snd (WaffleSwitchNamespace.override_for_request self switch_name active w) in
  cached_value "switches" key' (request_cache w1) =
    cached_value "switches" key' (request_cache w) /\
  forall flag_key,
    cached_value "flags" flag_key (request_cache w1) =
      cached_value "flags" flag_key (request_cache w).
Proof.
  intros Hne. rewrite override_for_request_eq. simpl. split.
  - by apply cached_value_set_other_key.
  - intros flag_key. by apply cached_value_other_sub.
Qed.

Lemma override_for_request_frame_witness :
  cached_value "switches" "grades.estimate_first_attempted"
    (request_cache
       (snd (WaffleSwitchNamespace.override_for_request (mk "grades" None) "assume_zero" true
               blank_request))) =
  cached_value "switches" "grades.estimate_first_attempted" (request_cache blank_request).
Proof.
  apply (override_for_request_frame (mk "grades" None) "assume_zero" true blank_request
           "grades.estimate_first_attempted").
  discriminate.
Defined.

End RequestOverride.

Section ModelOverride.
Import WaffleNamespace.

Lemma restore_switch_set (old : option bool) (key : string) (active : bool)
    (s : gmap string bool) :
  s !! key = old -> restore_switch old key (<[key := active]> s) = s.
Proof.
  intros <-. unfold restore_switch. destruct (s !! key) as [v|] eqn:Hs.
  - rewrite insert_insert_eq. by apply insert_id.
  - by apply delete_insert_id.
Qed.

Lemma override_in_model_eq {A} (self : t) (switch_name : string) (active : bool)
    (body : M A) (w : World) :
  let key := _namespaced_name self switch_name in
  let w_in := mkWorld (request_cache w) (<[key := active]> (switches w)) (flags w)
                 (course_overrides w) (consulted w) in
  WaffleSwitchNamespace.override_in_model self switch_name active body w =
    (fst (body w_in),
     mkWorld (request_cache (snd (body w_in)))
       (restore_switch (switches w !! key) key (switches (snd (body w_in))))
       (flags (snd (body w_in))) (course_overrides (snd (body w_in)))
       (consulted (snd (body w_in)))).
Proof.
  intros key w_in.
  unfold WaffleSwitchNamespace.override_in_model, waffle_override_switch.
  fold key. unfold bind, get_world, set_switches, try_finally. simpl. fold w_in.
  destruct (body w_in) as [r w_out]. simpl.
  by destruct (switches w !! key).
Qed.

(** X3: a switch the request has already memoized is not affected by
    [override_in_model]: inside the scope [is_enabled] still returns the
    memoized value, and the scope leaves request cache and switch store as
    they were. *)
Theorem override_in_model_hidden_by_memo (self : t) (switch_name : string)
    (active v : bool) (w : World) :
  cached_value "switches" (_namespaced_name self switch_name) (request_cache w) = Some v ->
  exists w' : World,
    WaffleSwitchNamespace.override_in_model self switch_name active
      (WaffleSwitchNamespace.is_enabled self switch_name) w = (Ok v, w') /\
    request_cache w' = request_cache w /\
    switches w' = switches w.
Proof.
  intros Hhit. rewrite override_in_model_eq.
  rewrite (switch_is_enabled_hit self switch_name _ v) by exact Hhit. simpl.
  eexists. split; [reflexivity|]. simpl. split; [reflexivity|].
  by apply restore_switch_set.
Qed.

(** X4: a switch the request has not memoized yet reads the overridden value
    inside [override_in_model], and keeps it: when the scope ends the switch
    store is exactly as it was, but the request goes on answering with the
    overridden value. *)
Theorem override_in_model_outlives_scope (self : t) (switch_name : string)
    (active : bool) (w : World) :
  cached_value "switches" (_namespaced_name self switch_name) (request_cache w) = None ->
  exists w' : World,
    WaffleSwitchNamespace.override_in_model self switch_name active
      (WaffleSwitchNamespace.is_enabled self switch_name) w = (Ok active, w') /\
    switches w' = switches w /\
    fst (WaffleSwitchNamespace.is_enabled self switch_name w') = Ok active.
Proof.
  intros Hmiss. rewrite override_in_model_eq.
  rewrite (switch_is_enabled_miss self switch_name) by exact Hmiss. simpl.
  rewrite lookup_insert_eq. simpl.
  eexists. split; [reflexivity|]. simpl. split; [by apply restore_switch_set|].
  rewrite (switch_is_enabled_hit _ _ _ active); [reflexivity|].
  simpl. apply cached_value_set.
Qed.

End ModelOverride.

Section ScopeComposition.
Import WaffleNamespace.

Lemma switch_is_enabled_effective (self : t) (switch_name : string) (w : World) :
  fst (WaffleSwitchNamespace.is_enabled self switch_name w) =
    Ok (effective_switch (_namespaced_name self switch_name) w).
Proof.
  destruct (switch_is_enabled_eq self switch_name w) as [evs ->]. reflexivity.
Qed.

(** The scope of [override] in closed form: the world the body starts in
    and the world the scope leaves. *)
Lemma override_eq {A} (self : t) (switch_name : string) (active : bool)
    (body : M A) (w : World) :
  let key := _namespaced_name self switch_name in
  exists evs : list Event,
    let w_in :=
      mkWorld
        (cache_with "WaffleNamespace" "switches"
           (<[key := active]> (cache_dict "WaffleNamespace" "switches" (request_cache w)))
           (request_cache w))
        (<[key := active]> (switches w)) (flags w) (course_overrides w)
        (evs ++ consulted w) in
    let w_out := snd (body w_in) in
    WaffleSwitchNamespace.override self switch_name active body w =
      (fst (body w_in),
       mkWorld
         (cache_with "WaffleNamespace" "switches"
            (<[key := effective_switch key w]>
               (cache_dict "WaffleNamespace" "switches" (request_cache w_out)))
            (request_cache w_out))
         (restore_switch (switches w !! key) key (switches w_out))
         (flags w_out) (course_overrides w_out)
         (EvRequestCache "WaffleNamespace" :: consulted w_out)).
Proof.
  intros key.
  destruct (switch_is_enabled_eq self switch_name w) as [evs Hprev].
  fold key in Hprev. change (default _ _) with (effective_switch key w) in Hprev.
  exists (EvRequestCache "WaffleNamespace" :: evs).
  unfold WaffleSwitchNamespace.override. unfold bind at 1. rewrite Hprev.
  unfold try_finally. unfold bind at 1. rewrite override_for_request_eq.
  rewrite override_in_model_eq. fold key. simpl.
  rewrite cache_dict_with, cache_with_with, insert_insert_eq.
  rewrite override_for_request_eq. fold key. simpl. reflexivity.
Qed.

(** X5: inside [override] the switch reads as the overridden value, and once
    the scope has ended it reads as it did before the scope. *)
Theorem override_visible_inside_only (self : t) (switch_name : string) (active : bool)
    (w : World) :
  fst (WaffleSwitchNamespace.override self switch_name active
         (WaffleSwitchNamespace.is_enabled self switch_name) w) = Ok active /\
  fst ((WaffleSwitchNamespace.override self switch_name active
          (WaffleSwitchNamespace.is_enabled self switch_name) ;;
        WaffleSwitchNamespace.is_enabled self switch_name) w) =
    fst (WaffleSwitchNamespace.is_enabled self switch_name w).
Proof.
  destruct (override_eq self switch_name active
              (WaffleSwitchNamespace.is_enabled self switch_name) w) as [evs Hrun].
  cbv zeta in Hrun.
  rewrite (switch_is_enabled_hit self switch_name _ active) in Hrun
    by (simpl; apply cached_value_set).
  simpl in Hrun. split.
  - by rewrite Hrun.
  - unfold bind. rewrite Hrun.
    rewrite (switch_is_enabled_hit self switch_name _
               (effective_switch (_namespaced_name self switch_name) w))
      by (simpl; apply cached_value_set).
    by rewrite switch_is_enabled_effective.
Qed.

(** X6: scopes nest: inside an inner [override] of the same switch the inner
    value is read, after it the outer value is read again, and when both have
    ended the switch store is exactly as before. *)
Theorem override_nested (self : t) (switch_name : string) (outer inner : bool) (w : World) :
  let scopes :=
    WaffleSwitchNamespace.override self switch_name outer
      (x <- WaffleSwitchNamespace.override self switch_name inner
              (WaffleSwitchNamespace.is_enabled self switch_name) ;;
       y <- WaffleSwitchNamespace.is_enabled self switch_name ;;
       ret (x, y)) in
  fst (scopes w) = Ok (inner, outer) /\
  switches (snd (scopes w)) = switches w.
Proof.
  intros scopes. subst scopes.
  set (key := _namespaced_name self switch_name).
  match goal with |- context [WaffleSwitchNamespace.override _ _ outer ?b w] =>
    destruct (override_eq self switch_name outer b w) as [evs Hout] end.
  cbv zeta in Hout. fold key in Hout.
  set (w_in := mkWorld _ (<[key := outer]> (switches w)) _ _ (evs ++ consulted w)) in Hout.
  assert (Heff : effective_switch key w_in = outer).
  { unfold effective_switch. subst w_in. simpl. by rewrite cached_value_set. }
  destruct (override_eq self switch_name inner
              (WaffleSwitchNamespace.is_enabled self switch_name) w_in) as [evs' Hin].
  cbv zeta in Hin. fold key in Hin.
  rewrite (switch_is_enabled_hit self switch_name _ inner) in Hin
    by (simpl; apply cached_value_set).
  simpl in Hin. rewrite Heff in Hin.
  assert (Hbody :
    exists w_out,
      (x <- WaffleSwitchNamespace.override self switch_name inner
              (WaffleSwitchNamespace.is_enabled self switch_name) ;;
       y <- WaffleSwitchNamespace.is_enabled self switch_name ;;
       ret (x, y)) w_in = (Ok (inner, outer), w_out) /\
      switches w_out = <[key := outer]> (switches w)).
  { unfold bind at 1. rewrite Hin. unfold bind.
    rewrite (switch_is_enabled_hit self switch_name _ outer)
      by (simpl; apply cached_value_set).
    eexists. split; [reflexivity|]. simpl.
    subst w_in. simpl. rewrite lookup_insert_eq. simpl.
    by rewrite !insert_insert_eq. }
  destruct Hbody as (w_out & Hbody & Hsw).
  rewrite Hbody in Hout. simpl in Hout. rewrite Hout. simpl.
  split; [reflexivity|]. rewrite Hsw. by apply restore_switch_set.
Qed.

End ScopeComposition.

Section FlagResolution.
Import WaffleNamespace.

(** X7: the first resolution of a flag through a callback. A definite answer
    of the callback is returned and memoized without the flag store being
    consulted; with no opinion from the callback the flag store decides, as it
    stands once the callback has run; an exception of the callback comes out
    of [is_enabled], which then memoizes nothing. *)
Theorem flag_callback_precedence (self : t) (flag_name : string)
    (callback : string -> M (option bool)) (w : World) :
  let key := _namespaced_name self flag_name in
  let w0 := after [EvCallback key; EvRequestCache "WaffleNamespace"]
              (cache_with "WaffleNamespace" "flags"
                 (cache_dict "WaffleNamespace" "flags" (request_cache w)) (request_cache w))
              w in
  let memo (v : bool) (w1 : World) :=
    cache_with "WaffleNamespace" "flags"
      (<[key := v]> (cache_dict "WaffleNamespace" "flags" (request_cache w1)))
      (request_cache w1) in
  cached_value "flags" key (request_cache w) = None ->
  (forall b w1, callback key w0 = (Ok (Some b), w1) ->
     WaffleFlagNamespace.is_enabled self flag_name (Some callback) w =
       (Ok b, after [EvRequestCache "WaffleNamespace"] (memo b w1) w1)) /\
  (forall w1, callback key w0 = (Ok None, w1) ->
     let v := default false (flags w1 !! key) in
     WaffleFlagNamespace.is_enabled self flag_name (Some callback) w =
       (Ok v, after [EvRequestCache "WaffleNamespace"; EvFlagStore key] (memo v w1) w1)) /\
  (forall e w1, callback key w0 = (Raise e, w1) ->
     WaffleFlagNamespace.is_enabled self flag_name (Some callback) w = (Raise e, w1)).
Proof.
  intros key w0 memo Hmiss. unfold cached_value in Hmiss.
  assert (Hstart : forall r : result bool * World,
    (let (a, w') := callback key w0 in
     match a with
     | Ok (Some b) =>
         (Ok b, after [EvRequestCache "WaffleNamespace"] (memo b w') w')
     | Ok None =>
         (Ok (default false (flags w' !! key)),
          after [EvRequestCache "WaffleNamespace"; EvFlagStore key]
            (memo (default false (flags w' !! key)) w') w')
     | Raise e => (Raise e, w')
     end) = r ->
    WaffleFlagNamespace.is_enabled self flag_name (Some callback) w = r).
  { intros r <-.
    unfold WaffleFlagNamespace.is_enabled, WaffleFlagNamespace._cached_flags.
    unfold bind at 1. rewrite namespace_dict_eq. fold key. rewrite Hmiss.
    unfold bind at 1. unfold bind at 1. unfold tell at 1.
    match goal with |- context [callback key ?x] =>
      replace x with w0 by (unfold w0, after; simpl; reflexivity) end.
    destruct (callback key w0) as [[[b|]|e] w']; [| |reflexivity].
    - unfold bind at 1. unfold ret at 1. unfold bind.
      rewrite namespace_dict_setitem_eq. reflexivity.
    - unfold bind at 1. unfold flag_is_active, bind, tell, get_world, ret. simpl.
      rewrite namespace_dict_setitem_eq. reflexivity. }
  split; [|split].
  - intros b w1 Hcb. apply Hstart. by rewrite Hcb.
  - intros w1 Hcb. apply Hstart. by rewrite Hcb.
  - intros e w1 Hcb. apply Hstart. by rewrite Hcb.
Qed.

Lemma flag_callback_precedence_witness :
  WaffleFlagNamespace.is_enabled WAFFLE_FLAG_NAMESPACE "unified_course_experience"
    (Some (fun _ => raise (Exception "override table unavailable"))) blank_request =
  (Raise (Exception "override table unavailable"),
   after [EvCallback "course_experience.unified_course_experience";
          EvRequestCache "WaffleNamespace"]
     (cache_with "WaffleNamespace" "flags"
        (cache_dict "WaffleNamespace" "flags" (request_cache blank_request))
        (request_cache blank_request))
     blank_request).
Proof.
  apply (proj2 (proj2 (flag_callback_precedence WAFFLE_FLAG_NAMESPACE
                         "unified_course_experience"
                         (fun _ => raise (Exception "override table unavailable"))
                         blank_request eq_refl))).
  reflexivity.
Defined.

(** X8: a plain [WaffleFlag] never looks at the course overrides: whatever the
    override table holds the result is the same, and on a request that has
    not memoized the flag it is the global flag value, false for a flag that
    does not exist. *)
Theorem plain_flag_ignores_course_overrides (flag : WaffleFlag.t) (w : World) :
  let key := _namespaced_name (WaffleFlag.waffle_namespace flag) (WaffleFlag.flag_name flag) in
  (forall overrides : gmap (string * CourseKey) Choice,
     fst (WaffleFlag.is_enabled flag
            (mkWorld (request_cache w) (switches w) (flags w) overrides (consulted w))) =
     fst (WaffleFlag.is_enabled flag w)) /\
  (cached_value "flags" key (request_cache w) = None ->
     fst (WaffleFlag.is_enabled flag w) = Ok (default false (flags w !! key)) /\
     (flags w !! key = None -> fst (WaffleFlag.is_enabled flag w) = Ok false)).
Proof.
  intros key. unfold WaffleFlag.is_enabled. fold key.
  destruct (cached_value "flags" key (request_cache w)) as [v|] eqn:Hc.
  - split; [|discriminate]. intros overrides.
    by rewrite !(flag_is_enabled_hit _ _ _ _ v) by exact Hc.
  - split.
    + intros overrides. by rewrite !plain_flag_is_enabled_miss by exact Hc.
    + intros _. rewrite plain_flag_is_enabled_miss by exact Hc. simpl. fold key.
      split; [reflexivity|]. by intros ->.
Qed.

Lemma plain_flag_ignores_course_overrides_witness :
  fst (WaffleFlag.is_enabled UNIFIED_COURSE_EXPERIENCE_FLAG forced_on_request) = Ok false.
Proof.
  apply (proj1 (proj2 (plain_flag_ignores_course_overrides UNIFIED_COURSE_EXPERIENCE_FLAG
                         forced_on_request) ltac:(vm_compute; reflexivity))).
Defined.

End FlagResolution.

Section Isolation.
Import WaffleNamespace.

Lemma cached_value_set_frame (sub0 key : string) (v : bool)
    (rc : gmap string (gmap string (gmap string bool))) (sub key' : string) :
  (sub, key') <> (sub0, key) ->
  cached_value sub key'
    (cache_with "WaffleNamespace" sub0
       (<[key := v]> (cache_dict "WaffleNamespace" sub0 rc)) rc) =
  cached_value sub key' rc.
Proof.
  intros Hne. destruct (decide (sub = sub0)) as [->|Hsub].
  - apply cached_value_set_other_key. congruence.
  - by apply cached_value_other_sub.
Qed.

(** X9: resolving one switch or one flag leaves what the request has memoized
    for every other switch and flag as it was; the flag and the switch of one
    composite name are memoized apart. *)
Theorem is_enabled_leaves_other_keys (sub key' : string) (w : World) :
  (forall (self : t) (switch_name : string),
     (sub, key') <> ("switches", _namespaced_name self switch_name) ->
     cached_value sub key'
       (request_cache (snd (WaffleSwitchNamespace.is_enabled self switch_name w))) =
     cached_value sub key' (request_cache w)) /\
  (forall (flag : WaffleFlag.t),
     (sub, key') <>
       ("flags", _namespaced_name (WaffleFlag.waffle_namespace flag) (WaffleFlag.flag_name flag)) ->
     cached_value sub key' (request_cache (snd (WaffleFlag.is_enabled flag w))) =
     cached_value sub key' (request_cache w)) /\
  (forall (flag : WaffleFlag.t) (course_id : PyArg),
     (sub, key') <>
       ("flags", _namespaced_name (WaffleFlag.waffle_namespace flag) (WaffleFlag.flag_name flag)) ->
     cached_value sub key'
       (request_cache (snd (CourseOverrideWaffleFlag.is_enabled flag course_id w))) =
     cached_value sub key' (request_cache w)).
Proof.
  split; [|split].
  - intros self switch_name Hne.
    destruct (cached_value "switches" (_namespaced_name self switch_name) (request_cache w))
      as [v|] eqn:Hc.
    + by rewrite (switch_is_enabled_hit _ _ _ _ Hc).
    + rewrite (switch_is_enabled_miss _ _ _ Hc). simpl.
      by apply cached_value_set_frame.
  - intros flag Hne. unfold WaffleFlag.is_enabled.
    destruct (cached_value "flags"
                (_namespaced_name (WaffleFlag.waffle_namespace flag) (WaffleFlag.flag_name flag))
                (request_cache w)) as [v|] eqn:Hc.
    + by rewrite (flag_is_enabled_hit _ _ _ _ _ Hc).
    + rewrite (plain_flag_is_enabled_miss _ _ _ Hc). simpl.
      by apply cached_value_set_frame.
  - intros flag course_id Hne.
    destruct course_id as [| |k]; [reflexivity|reflexivity|].
    destruct (cached_value "flags"
                (_namespaced_name (WaffleFlag.waffle_namespace flag) (WaffleFlag.flag_name flag))
                (request_cache w)) as [v|] eqn:Hc.
    + unfold CourseOverrideWaffleFlag.is_enabled.
      by rewrite (flag_is_enabled_hit _ _ _ _ _ Hc).
    + rewrite (course_flag_is_enabled_miss _ _ _ Hc). simpl.
      by apply cached_value_set_frame.
Qed.

Lemma is_enabled_leaves_other_keys_witness :
  cached_value "flags" "grades.assume_zero"
    (request_cache
       (snd (WaffleSwitchNamespace.is_enabled (mk "grades" None) "assume_zero" blank_request))) =
  cached_value "flags" "grades.assume_zero" (request_cache blank_request).
Proof.
  apply (proj1 (is_enabled_leaves_other_keys "flags" "grades.assume_zero" blank_request)
           (mk "grades" None) "assume_zero").
  discriminate.
Defined.

End Isolation.

Section CourseHome.
Import WaffleNamespace.

Lemma course_home_url_name_eq (course_id : CourseKey) (w : World) :
  course_home_url_name (ArgCourseKey course_id) w =
    let r := CourseOverrideWaffleFlag.is_enabled UNIFIED_COURSE_EXPERIENCE_FLAG
               (ArgCourseKey course_id) w in
    match fst r with
    | Ok true => (Ok "openedx.course_experience.course_home", snd r)
    | Ok false => (Ok "info", snd r)
    | Raise e => (Raise e, snd r)
    end.
Proof.
  unfold course_home_url_name, bind. cbv zeta.
  destruct (CourseOverrideWaffleFlag.is_enabled _ _ w) as [[[]|e] w1]; reflexivity.
Qed.

(** X10: within one request [course_home_url_name] gives every course the
    name it gave the first course it was asked about. *)
Theorem course_home_url_name_pinned (first second : CourseKey) (w : World) :
  fst ((course_home_url_name (ArgCourseKey first) ;;
        course_home_url_name (ArgCourseKey second)) w) =
  fst (course_home_url_name (ArgCourseKey first) w).
Proof.
  unfold bind at 1. rewrite (course_home_url_name_eq first w). cbv zeta.
  destruct (course_flag_is_enabled_returns UNIFIED_COURSE_EXPERIENCE_FLAG first w)
    as (v & w1 & Hrun).
  rewrite Hrun. simpl.
  assert (Hc : cached_value "flags"
                 (_namespaced_name WAFFLE_FLAG_NAMESPACE "unified_course_experience")
                 (request_cache w1) = Some v).
  { apply (flag_is_enabled_cached WAFFLE_FLAG_NAMESPACE "unified_course_experience"
             (Some (CourseOverrideWaffleFlag._get_course_override_callback
                      UNIFIED_COURSE_EXPERIENCE_FLAG first)) w w1 v).
    exact Hrun. }
  assert (Hsecond : fst (course_home_url_name (ArgCourseKey second) w1) =
                    Ok (if v then "openedx.course_experience.course_home" else "info")).
  { rewrite course_home_url_name_eq. cbv zeta.
    unfold CourseOverrideWaffleFlag.is_enabled.
    rewrite (flag_is_enabled_hit _ _ _ _ _ Hc). simpl. by destruct v. }
  destruct v; simpl; exact Hsecond.
Qed.

(** X11: [course_home_url_name] returns one of two names, and raises only the
    assertion error of an argument that is no CourseKey; on a request that has
    not memoized the flag, a course forced on gets the course home and a
    course forced off gets the info page whatever the global flag says, and
    a course without a record follows the global flag. *)
Theorem course_home_url_name_cases (course_key : PyArg) (w : World) :
  let key := "course_experience.unified_course_experience" in
  (is_course_key course_key = true ->
     fst (course_home_url_name course_key w) = Ok "openedx.course_experience.course_home" \/
     fst (course_home_url_name course_key w) = Ok "info") /\
  (is_course_key course_key = false ->
     course_home_url_name course_key w =
       (Raise (AssertionError
                 ("The course_id '" +:+ py_str course_key +:+ "' must be a CourseKey.")), w)) /\
  (forall course_id : CourseKey,
     course_key = ArgCourseKey course_id ->
     cached_value "flags" key (request_cache w) = None ->
     fst (course_home_url_name course_key w) =
       Ok (match default unset (course_overrides w !! (key, course_id)) with
           | on => "openedx.course_experience.course_home"
           | off => "info"
           | unset =>
               if default false (flags w !! key)
               then "openedx.course_experience.course_home" else "info"
           end)).
Proof.
  intros key. split; [|split].
  - destruct course_key as [| |k]; [discriminate|discriminate|]. intros _.
    rewrite course_home_url_name_eq. cbv zeta.
    destruct (course_flag_is_enabled_returns UNIFIED_COURSE_EXPERIENCE_FLAG k w)
      as (v & w1 & ->).
    destruct v; simpl; auto.
  - destruct course_key as [| |k]; [reflexivity|reflexivity|discriminate].
  - intros course_id -> Hmiss.
    rewrite course_home_url_name_eq. cbv zeta.
    rewrite (course_flag_is_enabled_miss UNIFIED_COURSE_EXPERIENCE_FLAG course_id w Hmiss).
    simpl. change (_namespaced_name _ _) with key.
    destruct (course_overrides w !! (key, course_id)) as [[]|]; simpl; try reflexivity;
      by destruct (default false (flags w !! key)).
Qed.

Lemma course_home_url_name_cases_witness :
  fst (course_home_url_name (ArgCourseKey "course-v1:edX+DemoX+1T2017") forced_on_request) =
    Ok "openedx.course_experience.course_home" /\
  course_home_url_name ArgNone forced_on_request =
    (Raise (AssertionError "The course_id 'None' must be a CourseKey."), forced_on_request).
Proof.
  split.
  - apply (proj2 (proj2 (course_home_url_name_cases
                           (ArgCourseKey "course-v1:edX+DemoX+1T2017") forced_on_request))
             "course-v1:edX+DemoX+1T2017" eq_refl).
    vm_compute; reflexivity.
  - apply (proj1 (proj2 (course_home_url_name_cases ArgNone forced_on_request))).
    reflexivity.
Defined.

End CourseHome.

(** * Further properties of the language listing *)

Section ReleasedLanguages.

Lemma released_languages_eq_filter (released : list string) (default_code : string)
    (catalog : list (string * string)) :
  released_languages released default_code catalog =
    (fun language_info => mkLanguage (fst language_info) (snd language_info))
      <$> filter (fun language_info =>
                    fst language_info ∈ released \/ fst language_info = default_code)
                 catalog.
Proof.
  unfold released_languages. f_equal.
  apply list_filter_iff. intros [c n]; simpl.
  case_bool_decide as Hin.
  - split; [by left|]. by intros [H | ->].
  - rewrite (sorted_by_perm id (released ++ [default_code])).
    rewrite elem_of_app, list_elem_of_singleton. done.
Qed.

(** X12: [released_languages] depends on the released codes as a set only:
    two lists with the same members give the same result, whatever their
    order and repetitions, and listing the default code among the released
    codes changes nothing. *)
Theorem released_languages_depends_on_code_set (released1 released2 : list string)
    (default_code : string) (catalog : list (string * string)) :
  (forall c, c ∈ released1 <-> c ∈ released2) ->
  released_languages released1 default_code catalog =
    released_languages released2 default_code catalog /\
  released_languages (default_code :: released1) default_code catalog =
    released_languages released1 default_code catalog.
Proof.
  intros Hset. rewrite !released_languages_eq_filter. split; f_equal.
  - apply list_filter_iff. intros [c n]; simpl. by rewrite Hset.
  - apply list_filter_iff. intros [c n]; simpl. rewrite elem_of_cons. tauto.
Qed.

Lemma released_languages_depends_on_code_set_witness :
  released_languages ["fr"; "de"] "en" [("en", "English"); ("de", "Deutsch")] =
  released_languages ["de"; "fr"; "de"] "en" [("en", "English"); ("de", "Deutsch")].
Proof.
  apply (released_languages_depends_on_code_set ["fr"; "de"] ["de"; "fr"; "de"] "en"
           [("en", "English"); ("de", "Deutsch")]).
  intros c. rewrite !elem_of_cons, !elem_of_nil. tauto.
Defined.

(** X13: every language returned is an entry of the catalog whose code is
    released or the default; the default code is in the result exactly when
    the catalog has it, so forcing it in never invents an entry; and the
    result is never longer than the catalog. *)
Theorem released_languages_from_catalog (released : list string) (default_code : string)
    (catalog : list (string * string)) :
  (forall lang, lang ∈ released_languages released default_code catalog ->
     (code lang, name lang) ∈ catalog /\
     (code lang ∈ released \/ code lang = default_code)) /\
  (default_code ∈ code <$> released_languages released default_code catalog <->
   default_code ∈ fst <$> catalog) /\
  length (released_languages released default_code catalog) <= length catalog.
Proof.
  rewrite released_languages_eq_filter. split; [|split].
  - intros lang Hin. apply list_elem_of_fmap in Hin as ([c n] & -> & Hin).
    apply list_elem_of_filter in Hin as [Hp Hin]. simpl in *. done.
  - rewrite !list_elem_of_fmap. split.
    + intros (lang & Hd & Hin). apply list_elem_of_fmap in Hin as ([c n] & -> & Hin).
      apply list_elem_of_filter in Hin as [_ Hin]. simpl in Hd. subst c.
      by exists (default_code, n).
    + intros ([c n] & Hd & Hin). simpl in Hd. subst c.
      exists (mkLanguage default_code n). split; [done|].
      apply list_elem_of_fmap. exists (default_code, n). split; [done|].
      apply list_elem_of_filter. split; [by right|done].
  - rewrite length_fmap. apply length_filter.
Qed.

Lemma released_languages_from_catalog_witness :
  (code (mkLanguage "fr" "French"), name (mkLanguage "fr" "French"))
    ∈ [("fr", "French"); ("de", "Deutsch")] /\
  ~ "en" ∈ code <$> released_languages ["fr"] "en" [("fr", "French"); ("de", "Deutsch")].
Proof.
  split.
  - apply (proj1 (released_languages_from_catalog ["fr"] "en"
                    [("fr", "French"); ("de", "Deutsch")])).
    vm_compute. left.
  - intros Hin.
    apply (proj1 (proj2 (released_languages_from_catalog ["fr"] "en"
                           [("fr", "French"); ("de", "Deutsch")]))) in Hin.
    simpl in Hin. rewrite !elem_of_cons, elem_of_nil in Hin.
    destruct Hin as [H | [H | []]]; discriminate H.
Defined.

End ReleasedLanguages.

Section AllLanguages.

Lemma sorted_by_fixed {A} (key : A -> string) (l : list A) :
  Sorted (key_le key) l -> sorted_by key l = l.
Proof.
  induction 1 as [|x l Hl IH Hhd]; [done|].
  change (sorted_by key (x :: l)) with (insert_by key x (sorted_by key l)).
  rewrite IH.
  destruct Hhd as [|y l' Hxy]; simpl; [done|].
  unfold key_le in Hxy. by rewrite Hxy.
Qed.

(** X14: [all_languages] loses and repeats no language: its codes are the
    codes of the catalog, rearranged, whatever the translation. *)
Theorem all_languages_keeps_every_code (ugettext : string -> string)
    (catalog : list (string * string)) :
  fst <$> all_languages ugettext catalog ≡ₚ fst <$> catalog /\
  length (all_languages ugettext catalog) = length catalog.
Proof.
  unfold all_languages.
  pose proof (sorted_by_perm snd
                ((fun lang : string * string => (fst lang, ugettext (snd lang))) <$> catalog))
    as Hperm.
  split.
  - rewrite Hperm. rewrite <- list_fmap_compose. done.
  - rewrite Hperm. by rewrite length_fmap.
Qed.

(** X15: a catalog whose translated names are already in order is returned
    in catalog order, and listing the result again without translating
    changes nothing. *)
Theorem all_languages_of_sorted (ugettext : string -> string)
    (catalog : list (string * string)) :
  (Sorted (fun a b => String.leb (ugettext (snd a)) (ugettext (snd b)) = true) catalog ->
   all_languages ugettext catalog =
     (fun lang => (fst lang, ugettext (snd lang))) <$> catalog) /\
  all_languages id (all_languages ugettext catalog) = all_languages ugettext catalog.
Proof.
  split.
  - intros Hsorted. unfold all_languages. apply sorted_by_fixed.
    induction Hsorted as [|x l Hl IH Hhd]; simpl; constructor; [done|].
    destruct Hhd; simpl; constructor. done.
  - unfold all_languages at 1.
    rewrite (list_fmap_ext _ id (all_languages ugettext catalog)).
    + rewrite list_fmap_id. apply sorted_by_fixed. apply (sorted_by_sorted snd).
    + by intros i [c n] _.
Qed.

Lemma all_languages_of_sorted_witness :
  all_languages id [("de", "Deutsch"); ("en", "English")] =
    [("de", "Deutsch"); ("en", "English")].
Proof.
  apply (proj1 (all_languages_of_sorted id [("de", "Deutsch"); ("en", "English")])).
  repeat constructor.
Defined.

End AllLanguages.

(** * Further properties of composite keys *)

Section KeyCollisions.
Import WaffleNamespace.

Lemma string_append_assoc (a b c : string) : (a +:+ b) +:+ c = a +:+ (b +:+ c).
Proof.
  induction a as [|ch a IH]; [done|].
  change (String ch ((a +:+ b) +:+ c) = String ch (a +:+ (b +:+ c))). by f_equal.
Qed.

Lemma append_dot_eq (p1 p2 n1 n2 : string) :
  p1 +:+ "." +:+ n1 = p2 +:+ "." +:+ n2 ->
  (p1 = p2 /\ n1 = n2) \/
  (exists x, p2 = p1 +:+ "." +:+ x /\ n1 = x +:+ "." +:+ n2) \/
  (exists x, p1 = p2 +:+ "." +:+ x /\ n2 = x +:+ "." +:+ n1).
Proof.
  revert p2. induction p1 as [|c p1 IH]; intros [|d p2]; simpl; intros H.
  - left. by inversion H.
  - right; left. inversion H; subst. by exists p2.
  - right; right. inversion H; subst. by exists p1.
  - inversion H as [[Hc Hrest]]. subst d.
    destruct (IH p2 Hrest) as [[-> ->] | [(x & -> & ->) | (x & -> & ->)]].
    + by left.
    + right; left. by exists x.
    + right; right. by exists x.
Qed.

(** X16: two (namespace, name) pairs have the same composite key exactly when
    they are the same pair or one namespace is the other followed by a dot and
    some text that the other pair carries at the front of its name. *)
Theorem namespaced_name_collisions (self1 self2 : t) (name1 name2 : string) :
  _namespaced_name self1 name1 = _namespaced_name self2 name2 <->
  (namespace self1 = namespace self2 /\ name1 = name2) \/
  (exists x, namespace self2 = namespace self1 +:+ "." +:+ x /\
             name1 = x +:+ "." +:+ name2) \/
  (exists x, namespace self1 = namespace self2 +:+ "." +:+ x /\
             name2 = x +:+ "." +:+ name1).
Proof.
  unfold _namespaced_name. split.
  - apply append_dot_eq.
  - intros [[-> ->] | [(x & -> & ->) | (x & -> & ->)]]; [done| |].
    + by rewrite !string_append_assoc.
    + by rewrite !string_append_assoc.
Qed.

Lemma namespaced_name_collisions_witness :
  _namespaced_name (mk "a" None) "b.c" = _namespaced_name (mk "a.b" None) "c".
Proof.
  apply (proj2 (namespaced_name_collisions (mk "a" None) (mk "a.b" None) "b.c" "c")).
  right; left. exists "b". split; reflexivity.
Defined.

End KeyCollisions.

Section ModelOverrideWitnesses.
Import WaffleNamespace.

Lemma override_in_model_hidden_by_memo_witness :
  exists w' : World,
    WaffleSwitchNamespace.override_in_model (mk "grades" None) "assume_zero" false
      (WaffleSwitchNamespace.is_enabled (mk "grades" None) "assume_zero")
      (snd (WaffleSwitchNamespace.override_for_request (mk "grades" None) "assume_zero" true
              blank_request)) = (Ok true, w').
Proof.
  destruct (override_in_model_hidden_by_memo (mk "grades" None) "assume_zero" false true
              (snd (WaffleSwitchNamespace.override_for_request (mk "grades" None)
                      "assume_zero" true blank_request)))
    as (w' & Hrun & _).
  - vm_compute; reflexivity.
  - exists w'. exact Hrun.
Defined.

Lemma override_in_model_outlives_scope_witness :
  exists w' : World,
    WaffleSwitchNamespace.override_in_model (mk "grades" None) "assume_zero" true
      (WaffleSwitchNamespace.is_enabled (mk "grades" None) "assume_zero") blank_request =
      (Ok true, w') /\
    switches w' = switches blank_request /\
    fst (WaffleSwitchNamespace.is_enabled (mk "grades" None) "assume_zero" w') = Ok true.
Proof.
  apply (override_in_model_outlives_scope (mk "grades" None) "assume_zero" true blank_request).
  reflexivity.
Defined.

End ModelOverrideWitnesses.

Section Footprint.
Import WaffleNamespace.

Lemma same_footprint_after evs sub d (w : World) :
  same_footprint w (after evs (cache_with "WaffleNamespace" sub d (request_cache w)) w).
Proof.
  repeat split. intros cache_name Hne. simpl. unfold cache_with.
  by rewrite lookup_insert_ne.
Qed.

Lemma same_footprint_touch evs (w : World) :
  same_footprint w (after evs (request_cache w) w).
Proof. by repeat split. Qed.

(** X17: evaluating a switch or a flag, and overriding a switch for the
    request, write to no store and to no request cache other than the one
    named WaffleNamespace. *)
Theorem waffle_footprint (w : World) :
  (forall (self : t) (switch_name : string),
     same_footprint w (snd (WaffleSwitchNamespace.is_enabled self switch_name w))) /\
  (forall (self : t) (switch_name : string) (active : bool),
     same_footprint w
       (snd (WaffleSwitchNamespace.override_for_request self switch_name active w))) /\
  (forall flag : WaffleFlag.t,
     same_footprint w (snd (WaffleFlag.is_enabled flag w))) /\
  (forall (flag : WaffleFlag.t) (course_id : PyArg),
     same_footprint w (snd (CourseOverrideWaffleFlag.is_enabled flag course_id w))).
Proof.
  split; [|split; [|split]].
  - intros self switch_name.
    destruct (cached_value "switches" (_namespaced_name self switch_name) (request_cache w))
      as [v|] eqn:Hc.
    + rewrite (switch_is_enabled_hit _ _ _ _ Hc). apply same_footprint_touch.
    + rewrite (switch_is_enabled_miss _ _ _ Hc). apply same_footprint_after.
  - intros self switch_name active. rewrite override_for_request_eq.
    apply same_footprint_after.
  - intros flag. unfold WaffleFlag.is_enabled.
    destruct (cached_value "flags"
                (_namespaced_name (WaffleFlag.waffle_namespace flag) (WaffleFlag.flag_name flag))
                (request_cache w)) as [v|] eqn:Hc.
    + rewrite (flag_is_enabled_hit _ _ _ _ _ Hc). apply same_footprint_touch.
    + rewrite (plain_flag_is_enabled_miss _ _ _ Hc). apply same_footprint_after.
  - intros flag course_id.
    destruct course_id as [| |k]; [by repeat split|by repeat split|].
    destruct (cached_value "flags"
                (_namespaced_name (WaffleFlag.waffle_namespace flag) (WaffleFlag.flag_name flag))
                (request_cache w)) as [v|] eqn:Hc.
    + unfold CourseOverrideWaffleFlag.is_enabled.
      rewrite (flag_is_enabled_hit _ _ _ _ _ Hc). apply same_footprint_touch.
    + rewrite (course_flag_is_enabled_miss _ _ _ Hc). apply same_footprint_after.
Qed.

Lemma waffle_footprint_witness :
  request_cache
    (snd (WaffleSwitchNamespace.is_enabled (mk "grades" None) "assume_zero" blank_request))
    !! "course_structure" = request_cache blank_request !! "course_structure".
Proof.
  apply (proj1 (waffle_footprint blank_request) (mk "grades" None) "assume_zero").
  discriminate.
Defined.

End Footprint.
